(** * tag-vm-config: the alarm-driven VM tagging function

    A shallow embedding of [examples/go/tag-vm-config/handler/handler.go]
    and [handler/client.go].  Go [int] is the 64-bit two's complement
    integer of the amd64 and arm64 targets, held in [Z] with its wrap-around
    written out; [float64] is IEEE-754 binary64 through [SpecFloat]; a
    pointer that may be nil is an [option]; an [error] is represented by
    its [Error()] text; a run-time panic is an outcome of its own. *)

From Stdlib Require Import ZArith List String Ascii Bool Lia.
From Stdlib Require Import DecimalString Permutation.
From Stdlib Require Import Floats.SpecFloat.
Import ListNotations.

Local Open Scope string_scope.
Local Open Scope Z_scope.

(** ** Go runtime values *)

Module GoInt.

Definition min_int : Z := - 2 ^ 63.
Definition max_int : Z := 2 ^ 63 - 1.

(** Two's complement wrap-around of an arithmetic result into [int]. *)
Definition wrap (z : Z) : Z := (z + 2 ^ 63) mod 2 ^ 64 - 2 ^ 63.

Definition in_range (z : Z) : Prop := min_int <= z <= max_int.

End GoInt.

(** A call either returns or dies in a run-time panic (nil dereference,
    negative shift count). *)
Inductive Outcome (A : Type) : Type :=
| Returned (a : A)
| Panicked (why : string).
Arguments Returned {A} a.
Arguments Panicked {A} why.

Definition nil_deref : string :=
  "invalid memory address or nil pointer dereference".
Definition negative_shift : string := "negative shift amount".

(** [strconv.Itoa]: the decimal text of an [int], with a leading minus sign
    for negative numbers. *)
Definition Itoa (i : Z) : string := NilZero.string_of_int (Z.to_int i).

(** ** binary64 arithmetic and the part of package [math] that is used *)

Module Float64.

Definition prec : Z := 53.
Definition emax : Z := 1024.

Definition float64 : Type := spec_float.

Definition mul : float64 -> float64 -> float64 := SFmul prec emax.
Definition div : float64 -> float64 -> float64 := SFdiv prec emax.
Definition add : float64 -> float64 -> float64 := SFadd prec emax.
Definition eqb : float64 -> float64 -> bool := SFeqb.

(** The conversion [float64(i)] of an integer, rounded to nearest even. *)
Definition of_int (i : Z) : float64 := binary_normalize prec emax i 0 false.

(** The conversion [int(f)]: the fraction is discarded (truncation towards
    zero).  Where the value does not fit an [int] the result is the one
    the amd64 conversion instruction leaves, the smallest [int]. *)
Definition to_int (f : float64) : Z :=
  match f with
  | S754_zero _ => 0
  | S754_finite s m e =>
      let a := match e with
               | Zneg p => Z.shiftr (Zpos m) (Zpos p)
               | _ => Z.shiftl (Zpos m) e
               end in
      let v := if s then - a else a in
      if (GoInt.min_int <=? v) && (v <=? GoInt.max_int) then v
      else GoInt.min_int
  | _ => GoInt.min_int
  end.

Definition sub : float64 -> float64 -> float64 := SFsub prec emax.
Definition ltb : float64 -> float64 -> bool := SFltb.

Definition half : float64 := S754_finite false 4503599627370496 (-53).
Definition one : float64 := S754_finite false 4503599627370496 (-52).
Definition two : float64 := S754_finite false 4503599627370496 (-51).

(** [1 / math.Ln10] and [math.Sqrt2 / 2], untyped constants that the
    compiler rounds once to binary64. *)
Definition one_over_Ln10 : float64 := S754_finite false 7823553867474190 (-54).
Definition Sqrt2_over_2 : float64 := S754_finite false 6369051672525773 (-53).

(** [math.Frexp]: [f = frac * 2^exp] with [1/2 <= |frac| < 1]; zeros,
    infinities and NaN come back unchanged with exponent 0. *)
Definition Frexp (f : float64) : float64 * Z :=
  match f with
  | S754_finite _ _ _ => SFfrexp prec emax f
  | _ => (f, 0)
  end.

(** The constants of the logarithm kernel, by their bit patterns:
    [Ln2Hi] 3fe62e42 fee00000, [Ln2Lo] 3dea39ef 35793c76,
    [L1] 3FE55555 55555593 to [L7] 3FC2F112 DF3E5244. *)
Definition Ln2Hi : float64 := S754_finite false 6243314766446592 (-53).
Definition Ln2Lo : float64 := S754_finite false 7382048951581814 (-85).
Definition L1 : float64 := S754_finite false 6004799503160723 (-53).
Definition L2 : float64 := S754_finite false 7205759403686404 (-54).
Definition L3 : float64 := S754_finite false 5146971033736025 (-54).
Definition L4 : float64 := S754_finite false 8006390766270639 (-55).
Definition L5 : float64 := S754_finite false 6551322304906206 (-55).
Definition L6 : float64 := S754_finite false 5517391500461727 (-55).
Definition L7 : float64 := S754_finite false 5331612937900612 (-55).

(** The portable [log] of package [math]: the argument is reduced to
    [2^k * (1 + f)] with [sqrt 2 / 2 <= 1 + f < sqrt 2], and
    [log (1 + f)] is a polynomial in [s = f / (2 + f)].  On a power of two
    [f] is zero and what is left is [k * Ln2Hi + k * Ln2Lo]. *)
Definition log (x : float64) : float64 :=
  match x with
  | S754_nan => x
  | S754_infinity false => x
  | S754_infinity true => S754_nan
  | S754_zero _ => S754_infinity true
  | S754_finite true _ _ => S754_nan
  | S754_finite false _ _ =>
      let '(f1, ki) := Frexp x in
      let '(f1, ki) :=
        if ltb f1 Sqrt2_over_2 then (mul f1 two, GoInt.wrap (ki - 1))
        else (f1, ki) in
      let f := sub f1 one in
      let k := of_int ki in
      let s := div f (add two f) in
      let s2 := mul s s in
      let s4 := mul s2 s2 in
      let t1 := mul s2 (add L1 (mul s4 (add L3 (mul s4 (add L5 (mul s4 L7)))))) in
      let t2 := mul s4 (add L2 (mul s4 (add L4 (mul s4 L6)))) in
      let R := add t1 t2 in
      let hfsq := mul (mul half f) f in
      sub (mul k Ln2Hi)
          (sub (sub hfsq (add (mul s (add hfsq R)) (mul k Ln2Lo))) f)
  end.

Section WithLog.

(** [math.Log], the natural logarithm of the standard library: the
    portable [log] above, or the routine an architecture puts in its
    place. *)
Variable Log : float64 -> float64.

(** [math.Log10]: the natural logarithm times [1 / Ln10]. *)
Definition Log10 (x : float64) : float64 := mul (Log x) one_over_Ln10.

End WithLog.

End Float64.

(** ** The tier policy: [incCpuVal] and [incMemVal] *)

Definition incCpuVal (numCPU : Z) : string :=
  let newNum := 4 in
  let numCPU := GoInt.wrap (numCPU + 1) in
  let newNum := if numCPU <? newNum then numCPU else newNum in
  Itoa newNum.

(** [1 << exp] for an [int] shift count: a negative count panics, a count
    of 64 or more shifts every bit out. *)
Definition shl_one (exp : Z) : Outcome Z :=
  if exp <? 0 then Panicked negative_shift
  else Returned (GoInt.wrap (Z.shiftl 1 exp)).

Section TierPolicy.

Variable Log : Float64.float64 -> Float64.float64.

(** The exponent that [incMemVal] reads off its argument,
    [int(math.Log10(mem) / math.Log10(2))]. *)
Definition memExponent (mem : Float64.float64) : Z :=
  Float64.to_int
    (Float64.div (Float64.Log10 Log mem)
                 (Float64.Log10 Log (Float64.of_int 2))).

Definition incMemVal (mem : Float64.float64) : Outcome string :=
  let maxExp := 23 in
  let newMem := Z.shiftl 1 maxExp in
  let exp := memExponent mem in
  let exp := GoInt.wrap (exp + 1) in
  if exp <? maxExp then
    match shl_one exp with
    | Returned newMem => Returned (Itoa newMem)
    | Panicked why => Panicked why
    end
  else Returned (Itoa newMem).

End TierPolicy.

(** ** Data *)

(** A Go [error], by its [Error()] text; [fmt.Errorf("stage: %w", err)]
    puts the stage in front of it. *)
Definition error : Type := string.

Definition Errorf_w (stage : string) (err : error) : error :=
  (stage ++ err)%string.

(** The [(value, err)] pair a fallible Go call returns. *)
Inductive result (A : Type) : Type :=
| Ok (a : A)
| Err (e : error).
Arguments Ok {A} a.
Arguments Err {A} e.

(** Package [types] of govmomi, cut down to the fields the function reads.
    [Event_Vm] is the [Vm] field promoted from the embedded [Event]; it is a
    pointer and may be nil. *)
Module types.

Record ManagedObjectReference : Type :=
  { Type_ : string; Value : string }.

Record VmEventArgument : Type := { Vm : ManagedObjectReference }.

Record AlarmEventArgument : Type := { Name : string }.

Record AlarmStatusChangedEvent : Type :=
  { Event_Vm : option VmEventArgument;
    Alarm : AlarmEventArgument;
    To : string }.

(** [NumCPU] and [MemoryMB] are [int32]. *)
Record VirtualHardware : Type := { NumCPU : Z; MemoryMB : Z }.

Record VirtualMachineConfigInfo : Type := { Hardware : VirtualHardware }.

End types.

Module mo.

(** [Config] is a pointer: nil when the record carries no configuration. *)
Record VirtualMachine : Type :=
  { Config : option types.VirtualMachineConfigInfo }.

End mo.

Module tags.

Record Tag : Type := { ID : string; Name : string; CategoryID : string }.

End tags.

Module url.

Record Userinfo : Type := { username : string; password : string }.

Record URL : Type :=
  { Scheme : string; Host : string; Path : string; User : option Userinfo }.

Definition UserPassword (u p : string) : option Userinfo :=
  Some {| username := u; password := p |}.

End url.

(** Handles to the two remote sessions and to the tag manager built on the
    second one. *)
Inductive govmomiClient : Type := GovmomiSession (id : nat).
Inductive restClient : Type := restNewClient (c : govmomiClient).
Inductive tagsManager : Type := tagsNewManager (c : restClient).

Record vsClient : Type :=
  { govmomi : govmomiClient; rest : restClient; tagMgr : tagsManager }.

Record VCenterSection : Type :=
  { Server : string; User : string; Password : string; Insecure : bool }.

Record vcConfig : Type := { VCenter : VCenterSection }.

Record cloudEvent : Type := { Data : types.AlarmStatusChangedEvent }.

(** The zero value [cloudEvent{}]. *)
Definition cloudEvent_zero : cloudEvent :=
  {| Data := {| types.Event_Vm := None;
                types.Alarm := {| types.Name := "" |};
                types.To := "" |} |}.

(** A byte slice is the string of its bytes. *)
Module handler.

Record Request : Type := { Body : string }.

Record Response : Type := { RespBody : string; StatusCode : Z }.

End handler.

Definition StatusOK : Z := 200.
Definition StatusInternalServerError : Z := 500.

Definition cfgPath : string := "/var/openfaas/secrets/vcconfig".

(** ** The collaborators outside the function

    What the libraries and the vSphere endpoint answer.  One invocation
    asks each of them at most once, so a function of the arguments is as
    general as a stream of answers. *)
Inductive tomlTree : Type := TomlTree (doc : string).

Record World : Type :=
  { Getenv : string -> string;
    mathLog : Float64.float64 -> Float64.float64;
    jsonUnmarshal : string -> result cloudEvent;
    tomlLoadFile : string -> result tomlTree;
    tomlUnmarshal : tomlTree -> result vcConfig;
    (** the order in which [range] walks a map; some permutation *)
    mapRange : list (string * string) -> list (string * string);
    govmomiNewClient : url.URL -> bool -> result govmomiClient;
    restLogin : restClient -> option url.Userinfo -> option error;
    Retrieve : govmomiClient -> list types.ManagedObjectReference ->
               list string -> option error * mo.VirtualMachine;
    GetTagsForCategory : tagsManager -> string -> result (list tags.Tag);
    AttachTag : tagsManager -> string -> types.ManagedObjectReference ->
                option error }.

(** The same world under another environment. *)
Definition withGetenv (w : World) (env : string -> string) : World :=
  {| Getenv := env;
     mathLog := mathLog w;
     jsonUnmarshal := jsonUnmarshal w;
     tomlLoadFile := tomlLoadFile w;
     tomlUnmarshal := tomlUnmarshal w;
     mapRange := mapRange w;
     govmomiNewClient := govmomiNewClient w;
     restLogin := restLogin w;
     Retrieve := Retrieve w;
     GetTagsForCategory := GetTagsForCategory w;
     AttachTag := AttachTag w |}.

(** ** What an invocation does: log lines and calls that leave the process *)

Inductive LogMsg : Type :=
| LogText (s : string)
| LogVmMOR (r : types.ManagedObjectReference)
| LogRetrieveError (e : error)
| LogMoVM (vm : mo.VirtualMachine).

Inductive Effect : Type :=
| EvLog (m : LogMsg)
| EvLoadFile (path : string)
| EvNewClient (u : url.URL) (insecure : bool)
| EvRestLogin (c : restClient) (user : option url.Userinfo)
| EvRetrieve (c : govmomiClient) (objs : list types.ManagedObjectReference)
| EvGetTagsForCategory (m : tagsManager) (cat : string)
| EvAttachTag (m : tagsManager) (tagID : string)
              (ref : types.ManagedObjectReference)
| EvGoHandleSignal.

Definition isLog (e : Effect) : bool :=
  match e with EvLog _ => true | _ => false end.

(** The effects that leave the process: the secret file, the two logins
    and the calls to the endpoint. *)
Definition isRemote (e : Effect) : bool :=
  match e with
  | EvLog _ | EvGoHandleSignal => false
  | _ => true
  end.

(** ** Process state and the monad that threads it

    The package variables [client] and [once], and the effects so far.
    Invocations run one after the other here, so [lock] has nothing to
    exclude and is left out. *)
Record Store : Type :=
  { client : option vsClient; once : bool; trace : list Effect }.

Definition M (A : Type) : Type := Store -> Outcome A * Store.

Definition ret {A} (a : A) : M A := fun s => (Returned a, s).

Definition bind {A B} (m : M A) (k : A -> M B) : M B :=
  fun s =>
    match m s with
    | (Returned a, s') => k a s'
    | (Panicked why, s') => (Panicked why, s')
    end.

Definition panic {A} (why : string) : M A := fun s => (Panicked why, s).

Notation "x <- m ;; k" := (bind m (fun x => k))
  (at level 61, m at next level, right associativity).
Notation "m ;;; k" := (bind m (fun _ => k))
  (at level 61, right associativity).

Definition emit (e : Effect) : M unit :=
  fun s => (Returned tt,
            {| client := client s; once := once s;
               trace := trace s ++ [e] |}).

Definition getClient : M (option vsClient) := fun s => (Returned (client s), s).

Definition setClient (c : vsClient) : M unit :=
  fun s => (Returned tt,
            {| client := Some c; once := once s; trace := trace s |}).

(** Reading a field through the package variable [client]. *)
Definition derefClient : M vsClient :=
  c <- getClient ;;
  match c with
  | Some c => ret c
  | None => panic nil_deref
  end.

(** [once.Do(f)] *)
Definition onceDo (f : M unit) : M unit :=
  fun s =>
    if once s then (Returned tt, s)
    else f {| client := client s; once := true; trace := trace s |}.

Definition liftOutcome {A} (o : Outcome A) : M A := fun s => (o, s).

Definition logPrintln (msg : string) : M unit := emit (EvLog (LogText msg)).

(** ** The function *)

(** [catName] returns the category name based on alarm name. *)
Definition catName (alarmName : string) : string :=
  if String.eqb alarmName "VM CPU Usage" then "config.hardware.numCPU"
  else if String.eqb alarmName "VM Memory Usage" then "config.hardware.memoryMB"
  else "".

Fixpoint findCatAndTagID (ts : list tags.Tag) (tn : string) : string * string :=
  match ts with
  | [] => ("", "")
  | t :: ts' =>
      if String.eqb (tags.Name t) tn then (tags.CategoryID t, tags.ID t)
      else findCatAndTagID ts' tn
  end.

Definition isValidEvent (event : cloudEvent) : option error :=
  match types.Event_Vm (Data event) with
  | None => Some "empty VM managed object reference"
  | Some vm =>
      if String.eqb (types.Value (types.Vm vm)) ""
      then Some "empty VM managed object reference"
      else if String.eqb (types.Name (types.Alarm (Data event))) ""
              || String.eqb (types.To (Data event)) ""
      then Some "insufficent alarm infomration"
      else None
  end.

Definition isStorageInAlarm (event : cloudEvent) : bool :=
  let alarm := false in
  if String.eqb (types.To (Data event)) "red"
     && (String.eqb (types.Name (types.Alarm (Data event))) "VM Memory Usage"
         || String.eqb (types.Name (types.Alarm (Data event))) "VM CPU Usage")
  then true
  else alarm.

(** The event's [Vm] pointer is read without a nil check. *)
Definition eventVmMoRef (event : cloudEvent)
  : Outcome (types.ManagedObjectReference * option error) :=
  match types.Event_Vm (Data event) with
  | None => Panicked nil_deref
  | Some vm =>
      let moRef := {| types.Type_ := types.Type_ (types.Vm vm);
                      types.Value := types.Value (types.Vm vm) |} in
      Returned (moRef, None)
  end.

(** The first required field, in the order [range] walks the map, that is
    empty. *)
Fixpoint firstEmpty (kvs : list (string * string)) : option error :=
  match kvs with
  | [] => None
  | (k, v) :: kvs' =>
      if String.eqb v ""
      then Some ("required field(s) missing in config, including " ++ k)%string
      else firstEmpty kvs'
  end.

Section Function.

Variable w : World.

(** [debug] determines verbose logging. *)
Definition debug : bool :=
  let verbose := Getenv w "write_debug" in
  if String.eqb verbose "true" then true else false.

Definition errRespondAndLog (err : error) : M handler.Response :=
  (if debug then logPrintln err else ret tt) ;;;
  ret {| handler.RespBody := err;
         handler.StatusCode := StatusInternalServerError |}.

Definition parseCloudEvent (req : string) : result cloudEvent :=
  match jsonUnmarshal w req with
  | Err err => Err (Errorf_w "unmarshalling json: " err)
  | Ok event =>
      match isValidEvent event with
      | Some err => Err err
      | None => Ok event
      end
  end.

Definition validateConfig (cfg : vcConfig) : option error :=
  let reqFields :=
    [("vcenter server", Server (VCenter cfg));
     ("vcenter user", User (VCenter cfg));
     ("vcenter password", Password (VCenter cfg))] in
  firstEmpty (mapRange w reqFields).

Definition loadTomlCfg (path : string) : M (result vcConfig) :=
  emit (EvLoadFile path) ;;;
  match tomlLoadFile w path with
  | Err err => ret (Err (Errorf_w "loading vcconfig.toml: " err))
  | Ok secret =>
      match tomlUnmarshal w secret with
      | Err err => ret (Err (Errorf_w "unmarshalling vcconfig.toml: " err))
      | Ok cfg =>
          match validateConfig cfg with
          | Some err => ret (Err err)
          | None => ret (Ok cfg)
          end
      end
  end.

(** [newClient] of [handler/client.go]: two authentication steps, the
    second on a REST client built over the first session. *)
Definition newClient (u : url.URL) (insecure : bool) : M (result vsClient) :=
  emit (EvNewClient u insecure) ;;;
  match govmomiNewClient w u insecure with
  | Err err => ret (Err (Errorf_w "connecting to govmomi api failed: " err))
  | Ok gc =>
      let rc := restNewClient gc in
      emit (EvRestLogin rc (url.User u)) ;;;
      match restLogin w rc (url.User u) with
      | Some err => ret (Err (Errorf_w "log in to rest api failed: " err))
      | None =>
          ret (Ok {| govmomi := gc; rest := rc;
                     tagMgr := tagsNewManager rc |})
      end
  end.

(** [vsConnect] connects to vSphere once and keeps the connection in the
    package variable.  [cfg] is a pointer, read only when there is no
    client yet. *)
Definition vsConnect (cfg : option vcConfig) : M (option error) :=
  c <- getClient ;;
  match c with
  | None =>
      match cfg with
      | None => panic nil_deref
      | Some cfg =>
          let u := {| url.Scheme := "https";
                      url.Host := Server (VCenter cfg);
                      url.Path := "sdk";
                      url.User := url.UserPassword (User (VCenter cfg))
                                                   (Password (VCenter cfg)) |} in
          let insecure := Insecure (VCenter cfg) in
          (if debug then logPrintln "connecting to vSphere" else ret tt) ;;;
          r <- newClient u insecure ;;
          match r with
          | Err err => ret (Some (Errorf_w "connecting to vSphere API: " err))
          | Ok c => setClient c ;;; ret None
          end
      end
  | Some _ => ret None
  end.

(** [moVirtualMachine] fetches the VM record; a failed retrieval is only
    logged, and the record is handed back as it is. *)
Definition moVirtualMachine (vmMOR : types.ManagedObjectReference)
  : M mo.VirtualMachine :=
  emit (EvLog (LogVmMOR vmMOR)) ;;;
  c <- derefClient ;;
  emit (EvRetrieve (govmomi c) [vmMOR]) ;;;
  let '(err, moVM) := Retrieve w (govmomi c) [vmMOR] [] in
  (match err with
   | Some e => emit (EvLog (LogRetrieveError e))
   | None => ret tt
   end) ;;;
  emit (EvLog (LogMoVM moVM)) ;;;
  ret moVM.

(** Reading [moVM.Config.Hardware] through the [Config] pointer. *)
Definition configHardware (moVM : mo.VirtualMachine) : M types.VirtualHardware :=
  match mo.Config moVM with
  | Some cfg => ret (types.Hardware cfg)
  | None => panic nil_deref
  end.

(** The [switch] of [selectTag]: the expected name of the tag, the
    incremented value ([int32] to [int] and to [float64] are exact). *)
Definition tagNameSwitch (catName : string) (moVM : mo.VirtualMachine)
  : M string :=
  if String.eqb catName "config.hardware.numCPU" then
    hw <- configHardware moVM ;;
    ret (incCpuVal (types.NumCPU hw))
  else if String.eqb catName "config.hardware.memoryMB" then
    hw <- configHardware moVM ;;
    liftOutcome (incMemVal (mathLog w) (Float64.of_int (types.MemoryMB hw)))
  else ret "".

(** [selectTag] finds the current value for the alarm's category and
    selects the tag one increment above it. *)
Definition selectTag (ce : cloudEvent) (moVM : mo.VirtualMachine)
  : M (string * string * option error) :=
  let catName := catName (types.Name (types.Alarm (Data ce))) in
  tagName <- tagNameSwitch catName moVM ;;
  c <- derefClient ;;
  emit (EvGetTagsForCategory (tagMgr c) catName) ;;;
  match GetTagsForCategory w (tagMgr c) catName with
  | Err err => ret ("", "", Some err)
  | Ok tagList =>
      let '(catID, tagID) := findCatAndTagID tagList tagName in
      ret (catID, tagID, None)
  end.

Definition nothingToDo : string :=
  "Alert not for CPU/Memory in red, nothing to do.".

(** [Handle] a function invocation. *)
Definition Handle (req : handler.Request)
  : M (handler.Response * option error) :=
  match parseCloudEvent (handler.Body req) with
  | Err err =>
      r <- errRespondAndLog (Errorf_w "parsing cloud event data: " err) ;;
      ret (r, Some err)
  | Ok cloudEvt =>
  if negb (isStorageInAlarm cloudEvt) then
    let message := nothingToDo in
    logPrintln message ;;;
    ret ({| handler.RespBody := message;
            handler.StatusCode := StatusOK |}, None)
  else
  cfg <- loadTomlCfg cfgPath ;;
  match cfg with
  | Err err =>
      r <- errRespondAndLog (Errorf_w "loading of vcconfig: " err) ;;
      ret (r, Some err)
  | Ok cfg =>
  err <- vsConnect (Some cfg) ;;
  match err with
  | Some err =>
      r <- errRespondAndLog (Errorf_w "connecting to vSphere: " err) ;;
      ret (r, Some err)
  | None =>
  onceDo (emit EvGoHandleSignal) ;;;
  mr <- liftOutcome (eventVmMoRef cloudEvt) ;;
  match mr with
  | (_, Some err) =>
      r <- errRespondAndLog
             (Errorf_w "retrieving VM managed reference object: " err) ;;
      ret (r, Some err)
  | (vmMOR, None) =>
  moVM <- moVirtualMachine vmMOR ;;
  sel <- selectTag cloudEvt moVM ;;
  match sel with
  | (_, _, Some err) =>
      r <- errRespondAndLog
             (Errorf_w "retrieving VM managed reference object: " err) ;;
      ret (r, Some err)
  | (catID, tagID, None) =>
  c <- derefClient ;;
  emit (EvAttachTag (tagMgr c) tagID vmMOR) ;;;
  match AttachTag w (tagMgr c) tagID vmMOR with
  | Some err =>
      let wrapErr := Errorf_w "tagging managed reference object: " err in
      (if debug then logPrintln wrapErr else ret tt) ;;;
      r <- errRespondAndLog wrapErr ;;
      ret (r, Some err)
  | None =>
      let message :=
        (types.Value vmMOR ++ " was tagged with " ++ tagID ++ ", " ++ catID)%string in
      logPrintln message ;;;
      ret ({| handler.RespBody := message;
              handler.StatusCode := StatusOK |}, None)
  end end end end end end.

End Function.

(** A fresh process: no client yet, the signal handler not yet started. *)
Definition freshStore : Store :=
  {| client := None; once := false; trace := [] |}.

(** ** Sample worlds

    An endpoint whose answers are fixed in advance: what the payload
    decodes to, how the two logins end, which configuration the VM record
    carries, which tags the category holds, and which tag identifiers the
    endpoint refuses to attach. *)
Section Samples.

Definition vm42 : types.ManagedObjectReference :=
  {| types.Type_ := "VirtualMachine"; types.Value := "vm-42" |}.

Definition alarmEvent (name level : string) : cloudEvent :=
  {| Data := {| types.Event_Vm := Some {| types.Vm := vm42 |};
                types.Alarm := {| types.Name := name |};
                types.To := level |} |}.

Definition sampleConfig : vcConfig :=
  {| VCenter := {| Server := "vc.example.org"; User := "svc";
                   Password := "secret"; Insecure := true |} |}.

Definition hardware (cpus mem : Z) : types.VirtualMachineConfigInfo :=
  {| types.Hardware := {| types.NumCPU := cpus; types.MemoryMB := mem |} |}.

Definition cpuTags : list tags.Tag :=
  [ {| tags.ID := "tag-2"; tags.Name := "2"; tags.CategoryID := "cat-cpu" |};
    {| tags.ID := "tag-3"; tags.Name := "3"; tags.CategoryID := "cat-cpu" |} ].

Definition sampleWorld
  (event : result cloudEvent)
  (session : result govmomiClient) (login : option error)
  (config : option types.VirtualMachineConfigInfo)
  (tagList : list tags.Tag) : World :=
  {| Getenv := fun _ => "";
     mathLog := Float64.log;
     jsonUnmarshal :=
       fun req => if String.eqb req ""
                  then Err "unexpected end of JSON input" else event;
     tomlLoadFile := fun path => Ok (TomlTree path);
     tomlUnmarshal := fun _ => Ok sampleConfig;
     mapRange := fun kvs => kvs;
     govmomiNewClient := fun _ _ => session;
     restLogin := fun _ _ => login;
     Retrieve := fun _ _ _ => (None, {| mo.Config := config |});
     GetTagsForCategory := fun _ _ => Ok tagList;
     AttachTag := fun _ tagID _ =>
       if String.eqb tagID "" then Some "404 Not Found" else None |}.

Definition sampleClient : vsClient :=
  let gc := GovmomiSession 1 in
  {| govmomi := gc; rest := restNewClient gc;
     tagMgr := tagsNewManager (restNewClient gc) |}.

Definition sampleRequest : handler.Request := {| handler.Body := "{...}" |}.

End Samples.

(** ** Vocabulary of the statements *)

(** A notification is well-formed when the VM reference is there with a
    non-empty identifier and neither the alarm name nor the new level is
    empty. *)
Definition wellFormed (event : cloudEvent) : Prop :=
  (exists vm, types.Event_Vm (Data event) = Some vm /\
              types.Value (types.Vm vm) <> "") /\
  types.Name (types.Alarm (Data event)) <> "" /\
  types.To (Data event) <> "".

(** The address [vsConnect] dials for a configuration. *)
Definition sdkURL (cfg : vcConfig) : url.URL :=
  {| url.Scheme := "https";
     url.Host := Server (VCenter cfg);
     url.Path := "sdk";
     url.User := url.UserPassword (User (VCenter cfg))
                                  (Password (VCenter cfg)) |}.

(** One of the two authentication steps of [newClient] fails. *)
Definition authFails (w : World) (cfg : vcConfig) : Prop :=
  (exists e, govmomiNewClient w (sdkURL cfg) (Insecure (VCenter cfg)) = Err e) \/
  (exists gc e,
     govmomiNewClient w (sdkURL cfg) (Insecure (VCenter cfg)) = Ok gc /\
     restLogin w (restNewClient gc) (url.User (sdkURL cfg)) = Some e).

(** The run of [vsConnect] ends with client [c] installed: it was there
    already, or both authentication steps succeed and build it. *)
Definition connects (w : World) (cfg : vcConfig) (s : Store) (c : vsClient)
  : Prop :=
  client s = Some c \/
  (client s = None /\
   exists gc,
     govmomiNewClient w (sdkURL cfg) (Insecure (VCenter cfg)) = Ok gc /\
     restLogin w (restNewClient gc) (url.User (sdkURL cfg)) = None /\
     c = {| govmomi := gc; rest := restNewClient gc;
            tagMgr := tagsNewManager (restNewClient gc) |}).

(** The tier name of an actionable alarm over the hardware [hw]. *)
Definition tierOf (w : World) (event : cloudEvent) (hw : types.VirtualHardware)
  : Outcome string :=
  if String.eqb (types.Name (types.Alarm (Data event))) "VM CPU Usage"
  then Returned (incCpuVal (types.NumCPU hw))
  else incMemVal (mathLog w) (Float64.of_int (types.MemoryMB hw)).

(** An invocation that gets as far as fetching the VM record: the payload
    parses to an actionable [event] about [vmMOR], the configuration loads
    and the connection yields [c]. *)
Record ReachesFetch
  (w : World) (req : handler.Request) (s : Store) (c : vsClient)
  (event : cloudEvent) (vmMOR : types.ManagedObjectReference) : Prop :=
  { rf_parse : parseCloudEvent w (handler.Body req) = Ok event;
    rf_actionable : isStorageInAlarm event = true;
    rf_vmMOR : eventVmMoRef event = Returned (vmMOR, None);
    rf_connect :
      exists secret cfg,
        tomlLoadFile w cfgPath = Ok secret /\
        tomlUnmarshal w secret = Ok cfg /\
        validateConfig w cfg = None /\
        connects w cfg s c }.


(** What [Handle] does with the result of [selectTag]. *)
Definition afterSelectTag (w : World) (vmMOR : types.ManagedObjectReference)
  (sel : string * string * option error)
  : M (handler.Response * option error) :=
  match sel with
  | (_, _, Some err) =>
      r <- errRespondAndLog w
             (Errorf_w "retrieving VM managed reference object: " err) ;;
      ret (r, Some err)
  | (catID, tagID, None) =>
      c <- derefClient ;;
      emit (EvAttachTag (tagMgr c) tagID vmMOR) ;;;
      match AttachTag w (tagMgr c) tagID vmMOR with
      | Some err =>
          let wrapErr := Errorf_w "tagging managed reference object: " err in
          (if debug w then logPrintln wrapErr else ret tt) ;;;
          r <- errRespondAndLog w wrapErr ;;
          ret (r, Some err)
      | None =>
          let message :=
            (types.Value vmMOR ++ " was tagged with " ++ tagID ++ ", " ++ catID)%string in
          logPrintln message ;;;
          ret ({| handler.RespBody := message;
                  handler.StatusCode := StatusOK |}, None)
      end
  end.

(** Two runs are compared up to the log: same client, same [once], same
    effects other than log lines. *)
Definition nonlog (t : list Effect) : list Effect :=
  filter (fun e => negb (isLog e)) t.

Definition eqv (s1 s2 : Store) : Prop :=
  client s1 = client s2 /\ once s1 = once s2 /\
  nonlog (trace s1) = nonlog (trace s2).

Definition sim {A} (m1 m2 : M A) : Prop :=
  forall s1 s2, eqv s1 s2 ->
    fst (m1 s1) = fst (m2 s2) /\ eqv (snd (m1 s1)) (snd (m2 s2)).

(** What a returned value satisfies, whatever the store. *)
Definition post {A} (P : A -> Prop) (m : M A) : Prop :=
  forall s, match fst (m s) with
            | Returned a => P a
            | Panicked _ => True
            end.

(** The shape of every response: 200 with a nil error, or 500 with the
    error's text, behind the name of the stage, as the body. *)
Definition responseShape (r : handler.Response * option error) : Prop :=
  match snd r with
  | None => handler.StatusCode (fst r) = StatusOK
  | Some err =>
      handler.StatusCode (fst r) = StatusInternalServerError /\
      exists stage, handler.RespBody (fst r) = Errorf_w stage err
  end.

(** ** Shutdown: [logout] and [handleSignal]

    The two logout calls are answered by the endpoint; what is logged and
    which calls are made is kept in a list of its own. *)
Record Sessions : Type :=
  { govmomiLogout : govmomiClient -> option error;
    restLogout : restClient -> option error }.

Inductive ShutdownEffect : Type :=
| EvSigLog (msg : string)
| EvGovmomiLogout (c : govmomiClient)
| EvRestLogout (c : restClient).

Definition isSigLog (e : ShutdownEffect) : bool :=
  match e with EvSigLog _ => true | _ => false end.

(** [logout] of [handler/client.go], a method on the client pointer. *)
Definition logout (e : Sessions) (clt : option vsClient)
  : Outcome (option error) * list ShutdownEffect :=
  match clt with
  | None => (Panicked nil_deref, [])
  | Some clt =>
      match govmomiLogout e (govmomi clt) with
      | Some err =>
          (Returned (Some (Errorf_w "govmomi api logout failed: " err)),
           [EvGovmomiLogout (govmomi clt)])
      | None =>
          match restLogout e (rest clt) with
          | Some err =>
              (Returned (Some (Errorf_w "rest api logout failed: " err)),
               [EvGovmomiLogout (govmomi clt); EvRestLogout (rest clt)])
          | None =>
              (Returned None,
               [EvGovmomiLogout (govmomi clt); EvRestLogout (rest clt)])
          end
      end
  end.

(** [handleSignal] from the moment the signal [sig] (by its name) has been
    received on the channel; it reads the package variable [client]. *)
Definition handleSignal (w : World) (e : Sessions) (sig : string) (s : Store)
  : Outcome unit * list ShutdownEffect :=
  let verbose := debug w in
  let l1 := if verbose
            then [EvSigLog ("got signal: " ++ sig ++ ", log out of vSphere")%string]
            else [] in
  match logout e (client s) with
  | (Panicked why, l2) => (Panicked why, (l1 ++ l2)%list)
  | (Returned err, l2) =>
      if verbose then
        match err with
        | Some err =>
            (Returned tt,
             (l1 ++ l2
                 ++ [EvSigLog ("vSphere logout failed: " ++ err)%string])%list)
        | None =>
            (Returned tt,
             (l1 ++ l2
                 ++ [EvSigLog "logged out of govmomi and rest APIs"])%list)
        end
      else (Returned tt, (l1 ++ l2)%list)
  end.

(** ** Invocations one after the other

    Each invocation meets its own world; the package variables live on
    from one to the next, also past an invocation that panicked. *)
Fixpoint serve (calls : list (World * handler.Request)) (s : Store) : Store :=
  match calls with
  | [] => s
  | (w, req) :: calls' => serve calls' (snd (Handle w req s))
  end.

(** ** More vocabulary *)

(** The map [validateConfig] ranges over. *)
Definition requiredFields (cfg : vcConfig) : list (string * string) :=
  [("vcenter server", Server (VCenter cfg));
   ("vcenter user", User (VCenter cfg));
   ("vcenter password", Password (VCenter cfg))].

(** [range] visits every entry of the map once, in some order. *)
Definition rangesAsGo (w : World) : Prop :=
  forall kvs, Permutation kvs (mapRange w kvs).

Definition complete (cfg : vcConfig) : Prop :=
  Server (VCenter cfg) <> "" /\ User (VCenter cfg) <> "" /\
  Password (VCenter cfg) <> "".

Definition missingField (k : string) : error :=
  ("required field(s) missing in config, including " ++ k)%string.

(** A client as [newClient] builds it: the REST client over the session,
    the tag manager over the REST client. *)
Definition wellBuilt (c : vsClient) : Prop :=
  rest c = restNewClient (govmomi c) /\ tagMgr c = tagsNewManager (rest c).

Definition isSignalStart (e : Effect) : bool :=
  match e with EvGoHandleSignal => true | _ => false end.

Definition isAuth (e : Effect) : bool :=
  match e with EvNewClient _ _ | EvRestLogin _ _ => true | _ => false end.

Definition isAttach (e : Effect) : bool :=
  match e with EvAttachTag _ _ _ => true | _ => false end.

(** Between two stores nothing happened to the connection: same client,
    same [once], no signal handler started, no authentication call. *)
Definition frame (s s' : Store) : Prop :=
  client s' = client s /\ once s' = once s /\
  filter isSignalStart (trace s') = filter isSignalStart (trace s) /\
  filter isAuth (trace s') = filter isAuth (trace s).

(** No tag was attached between two stores. *)
Definition sameAttach (s s' : Store) : Prop :=
  filter isAttach (trace s') = filter isAttach (trace s).

(** Every run of [m] takes a store to one related to it by [R]. *)
Definition steps {A} (R : Store -> Store -> Prop) (m : M A) : Prop :=
  forall s, R s (snd (m s)).

(** At most one tag was attached since the attach calls were [att]. *)
Definition attachedAtMostOnce (att : list Effect) (s : Store) : Prop :=
  filter isAttach (trace s) = att \/
  exists e, filter isAttach (trace s) = (att ++ [e])%list.

Definition hoare {A} (P : Store -> Prop) (m : M A)
  (Q : Outcome A -> Store -> Prop) : Prop :=
  forall s, P s -> Q (fst (m s)) (snd (m s)).

(** The connection state of a process: no client, [once] unused and no
    signal handler; or a well-built client, [once] used and exactly one
    signal handler started. *)
Definition sessionInv (s : Store) : Prop :=
  match client s with
  | None => once s = false /\ filter isSignalStart (trace s) = []
  | Some c =>
      wellBuilt c /\ once s = true /\
      filter isSignalStart (trace s) = [EvGoHandleSignal]
  end.

(** Right after a successful [vsConnect] in a process that satisfied
    [sessionInv]. *)
Definition sessionMid (s : Store) : Prop :=
  match client s with
  | None => False
  | Some c =>
      wellBuilt c /\
      ((once s = true /\ filter isSignalStart (trace s) = [EvGoHandleSignal]) \/
       (once s = false /\ filter isSignalStart (trace s) = []))
  end.

(** The client is [c] and the authentication calls so far are [auth]. *)
Definition connectedAs (c : vsClient) (auth : list Effect) (s : Store) : Prop :=
  client s = Some c /\ filter isAuth (trace s) = auth.

(** An invocation that gets as far as computing the tier: it reaches the
    fetch, the record carries the hardware [hw], and its tier is [tn]. *)
Record ReachesTier
  (w : World) (req : handler.Request) (s : Store) (c : vsClient)
  (event : cloudEvent) (vmMOR : types.ManagedObjectReference)
  (hw : types.VirtualHardware) (tn : string) : Prop :=
  { rt_fetch : ReachesFetch w req s c event vmMOR;
    rt_config :
      mo.Config (snd (Retrieve w (govmomi c) [vmMOR] []))
        = Some {| types.Hardware := hw |};
    rt_tier : tierOf w event hw = Returned tn }.

(** The same world with another natural logarithm. *)
Definition withMathLog (w : World)
  (Log : Float64.float64 -> Float64.float64) : World :=
  {| Getenv := Getenv w;
     mathLog := Log;
     jsonUnmarshal := jsonUnmarshal w;
     tomlLoadFile := tomlLoadFile w;
     tomlUnmarshal := tomlUnmarshal w;
     mapRange := mapRange w;
     govmomiNewClient := govmomiNewClient w;
     restLogin := restLogin w;
     Retrieve := Retrieve w;
     GetTagsForCategory := GetTagsForCategory w;
     AttachTag := AttachTag w |}.

(** [math.Log] as far as its special case at zero goes: minus infinity. *)
Definition logOfZero (x : Float64.float64) : Float64.float64 :=
  match x with
  | S754_zero _ => S754_infinity true
  | _ => x
  end.

(** A world for a red CPU alarm about [vm42] in which the read of the
    secret, the retrieval and the tag listing answer as given. *)
Definition cpuAlarmWorld
  (secret : result tomlTree)
  (retrieved : option error * mo.VirtualMachine)
  (listed : result (list tags.Tag)) : World :=
  {| Getenv := fun _ => "";
     mathLog := Float64.log;
     jsonUnmarshal := fun _ => Ok (alarmEvent "VM CPU Usage" "red");
     tomlLoadFile := fun _ => secret;
     tomlUnmarshal := fun _ => Ok sampleConfig;
     mapRange := fun kvs => kvs;
     govmomiNewClient := fun _ _ => Ok (GovmomiSession 1);
     restLogin := fun _ _ => None;
     Retrieve := fun _ _ _ => retrieved;
     GetTagsForCategory := fun _ _ => listed;
     AttachTag := fun _ _ _ => None |}.


Definition memTags : list tags.Tag :=
  [ {| tags.ID := "tag-2048"; tags.Name := "2048";
       tags.CategoryID := "cat-mem" |};
    {| tags.ID := "tag-4096"; tags.Name := "4096";
       tags.CategoryID := "cat-mem" |} ].

Definition isLookup (e : Effect) : bool :=
  match e with EvGetTagsForCategory _ _ => true | _ => false end.

(** No tag list was asked for between two stores. *)
Definition sameLookup (s s' : Store) : Prop :=
  filter isLookup (trace s') = filter isLookup (trace s).

(** * Properties *)

(** ** Helper facts *)

Lemma wrap_in_range (z : Z) : GoInt.in_range z -> GoInt.wrap z = z.
Proof.
  unfold GoInt.in_range, GoInt.wrap, GoInt.min_int, GoInt.max_int.
  intros H. rewrite Z.mod_small by lia. lia.
Qed.

(** ** Tier policy *)

(** C4 (as amended): for every CPU count [n] with [0 <= n] below the largest
    [int], [incCpuVal] returns the decimal string of [min (n + 1) 4]. *)
Theorem incCpuVal_min (n : Z) :
  0 <= n -> n < GoInt.max_int -> incCpuVal n = Itoa (Z.min (n + 1) 4).
Proof.
  intros Hlo Hhi. unfold incCpuVal.
  rewrite wrap_in_range
    by (unfold GoInt.in_range, GoInt.min_int, GoInt.max_int in *; lia).
  destruct (Z.ltb_spec (n + 1) 4) as [Hlt | Hge].
  - now rewrite Z.min_l by lia.
  - now rewrite Z.min_r by lia.
Qed.

Lemma incCpuVal_min_witness : incCpuVal 3 = "4" /\ incCpuVal 10 = "4".
Proof.
  split.
  - apply (incCpuVal_min 3); unfold GoInt.max_int; lia.
  - apply (incCpuVal_min 10); unfold GoInt.max_int; lia.
Defined.

(** C4 as stated fails at the largest [int]: the increment wraps around to
    the smallest one, which is below 4 and is printed. *)
Lemma incCpuVal_wraps_at_max_int :
  0 <= GoInt.max_int /\
  incCpuVal GoInt.max_int = "-9223372036854775808" /\
  incCpuVal GoInt.max_int <> Itoa (Z.min (GoInt.max_int + 1) 4).
Proof.
  split; [ unfold GoInt.max_int; lia | ].
  split; [ reflexivity | ].
  vm_compute. discriminate.
Qed.

(** The shape of [incMemVal] on any argument: the exponent read off is
    incremented and capped at 23, and 2 to that exponent is printed; an
    exponent below -1 makes the shift count negative. *)
Lemma incMemVal_shape (Log : Float64.float64 -> Float64.float64)
  (mem : Float64.float64) :
  (-1 <= memExponent Log mem < GoInt.max_int ->
   incMemVal Log mem
     = Returned (Itoa (2 ^ Z.min (memExponent Log mem + 1) 23))) /\
  (GoInt.min_int <= memExponent Log mem < -1 ->
   incMemVal Log mem = Panicked negative_shift).
Proof.
  unfold incMemVal, shl_one. generalize (memExponent Log mem). intros e.
  split; intros He;
    (rewrite wrap_in_range
       by (unfold GoInt.in_range, GoInt.min_int, GoInt.max_int in *; lia)).
  - destruct (Z.ltb_spec (e + 1) 23) as [Hlt | Hge].
    + destruct (Z.ltb_spec (e + 1) 0) as [Hneg | _]; [ lia | ].
      rewrite Z.min_l by lia. rewrite Z.shiftl_1_l.
      rewrite wrap_in_range; [ reflexivity | ].
      assert (0 < 2 ^ (e + 1)) by (apply Z.pow_pos_nonneg; lia).
      assert (2 ^ (e + 1) < 2 ^ 23) by (apply Z.pow_lt_mono_r; lia).
      unfold GoInt.in_range, GoInt.min_int, GoInt.max_int. lia.
    + now rewrite Z.min_r by lia.
  - destruct (Z.ltb_spec (e + 1) 23) as [_ | Hge]; [ | lia ].
    destruct (Z.ltb_spec (e + 1) 0) as [_ | Hpos]; [ reflexivity | lia ].
Qed.



(** The two rounded constants are the binary64 numbers nearest to
    [1 / Ln10], with the decimal [Ln10] of package [math], and to
    [sqrt 2 / 2]. *)
Lemma math_constants_nearest :
  let Ln10 := 2302585092994045684017991454684364210 in (* times 10^36 *)
  Z.abs (2 * 7823553867474190 * Ln10 - 2 ^ 55 * 10 ^ 36) <= Ln10 /\
  (2 * 6369051672525773 - 1) ^ 2 <= 2 ^ 107 <= (2 * 6369051672525773 + 1) ^ 2.
Proof. vm_compute. repeat split; discriminate. Qed.

(** What the stall means for a VM of 2048 megabytes in memory alarm: the
    tier is its present size, and that is the tag it gets. *)
Lemma Handle_memory_2048_keeps_its_size :
  let w := sampleWorld (Ok (alarmEvent "VM Memory Usage" "red"))
                       (Ok (GovmomiSession 1)) None
                       (Some (hardware 2 2048)) memTags in
  tierOf w (alarmEvent "VM Memory Usage" "red")
         {| types.NumCPU := 2; types.MemoryMB := 2048 |} = Returned "2048" /\
  exists s',
    Handle w sampleRequest freshStore
      = (Returned
           ({| handler.RespBody := "vm-42 was tagged with tag-2048, cat-mem";
               handler.StatusCode := StatusOK |}, None), s') /\
    filter isAttach (trace s')
      = [EvAttachTag (tagMgr sampleClient) "tag-2048" vm42].
Proof.
  cbv zeta. split; [ vm_compute; reflexivity | ].
  eexists. split; vm_compute; reflexivity.
Qed.

(** ** Classification and validation *)

(** C5: [isStorageInAlarm] holds exactly of a red alarm named "VM CPU Usage"
    or "VM Memory Usage", and is false of everything else. *)
Theorem isStorageInAlarm_iff (event : cloudEvent) :
  let level := types.To (Data event) in
  let name := types.Name (types.Alarm (Data event)) in
  (isStorageInAlarm event = true <->
     level = "red" /\ (name = "VM CPU Usage" \/ name = "VM Memory Usage")) /\
  (isStorageInAlarm event = false <->
     ~ (level = "red" /\ (name = "VM CPU Usage" \/ name = "VM Memory Usage"))).
Proof.
  cbv zeta. unfold isStorageInAlarm.
  destruct (String.eqb_spec (types.To (Data event)) "red") as [Hl | Hl];
    destruct (String.eqb_spec (types.Name (types.Alarm (Data event)))
                              "VM Memory Usage") as [Hm | Hm];
    destruct (String.eqb_spec (types.Name (types.Alarm (Data event)))
                              "VM CPU Usage") as [Hc | Hc];
    cbn; repeat split; intros; try tauto; try discriminate;
    try (exfalso; tauto).
Qed.

Lemma isValidEvent_None (event : cloudEvent) :
  isValidEvent event = None <-> wellFormed event.
Proof.
  unfold isValidEvent, wellFormed.
  destruct (types.Event_Vm (Data event)) as [vm | ].
  - destruct (String.eqb_spec (types.Value (types.Vm vm)) "") as [Hv | Hv];
      destruct (String.eqb_spec (types.Name (types.Alarm (Data event))) "")
        as [Hn | Hn];
      destruct (String.eqb_spec (types.To (Data event)) "") as [Ht | Ht];
      cbn; (split; [ intros H | intros [[vm' [E Hne]] [Hn' Ht']] ]);
      try discriminate; try reflexivity;
      try (inversion E; subst; congruence).
    repeat split; try assumption. exists vm. now split.
  - split; [ discriminate | ].
    intros [[vm [E _]] _]. discriminate.
Qed.

Lemma parseCloudEvent_Ok_iff (w : World) (req : string) (event : cloudEvent) :
  parseCloudEvent w req = Ok event <->
  jsonUnmarshal w req = Ok event /\ wellFormed event.
Proof.
  unfold parseCloudEvent.
  destruct (jsonUnmarshal w req) as [ev | e].
  - destruct (isValidEvent ev) as [err | ] eqn:Ev.
    + split; [ discriminate | ].
      intros [E Hwf]. inversion E; subst.
      apply isValidEvent_None in Hwf. congruence.
    + apply isValidEvent_None in Ev.
      split; intros H; [ inversion H; subst; now split | now destruct H ].
  - split; [ discriminate | intros [E _]; discriminate ].
Qed.

(** C6: [parseCloudEvent] returns an error exactly when the payload does
    not decode, or decodes to a notification whose VM reference is absent
    or has an empty identifier, or whose alarm name or new level is empty;
    every other payload comes back as the decoded notification.  The
    function is a value of the payload and the decoder alone. *)
Theorem parseCloudEvent_fails_exactly (w : World) (req : string) :
  ((exists err, parseCloudEvent w req = Err err) <->
     (exists err, jsonUnmarshal w req = Err err) \/
     (exists event, jsonUnmarshal w req = Ok event /\
        (types.Event_Vm (Data event) = None \/
         (exists vm, types.Event_Vm (Data event) = Some vm /\
                     types.Value (types.Vm vm) = "") \/
         types.Name (types.Alarm (Data event)) = "" \/
         types.To (Data event) = ""))) /\
  (forall event,
     parseCloudEvent w req = Ok event <->
     jsonUnmarshal w req = Ok event /\ wellFormed event).
Proof.
  split; [ | intros event; apply parseCloudEvent_Ok_iff ].
  unfold parseCloudEvent.
  destruct (jsonUnmarshal w req) as [event | e] eqn:Eu.
  - destruct (isValidEvent event) as [err | ] eqn:Ev.
    + assert (Hnot : ~ wellFormed event).
      { intros Hwf. apply isValidEvent_None in Hwf. congruence. }
      split; [ intros _; right | intros _; now exists err ].
      exists event. split; [ reflexivity | ].
      unfold wellFormed in Hnot.
      destruct (types.Event_Vm (Data event)) as [vm | ]; [ | now left ].
      destruct (String.eqb_spec (types.Value (types.Vm vm)) "");
        [ right; left; now exists vm | ].
      destruct (String.eqb_spec (types.Name (types.Alarm (Data event))) "");
        [ now right; right; left | ].
      destruct (String.eqb_spec (types.To (Data event)) "");
        [ now right; right; right | ].
      exfalso. apply Hnot. repeat split; try assumption.
      exists vm. now split.
    + assert (Hwf : wellFormed event) by now apply isValidEvent_None.
      split; [ intros [err H]; discriminate | ].
      intros [[err H] | [ev [E Hbad]]]; [ discriminate | ].
      inversion E; subst ev. exfalso.
      destruct Hwf as [[vm [Evm Hv]] [Hn Ht]].
      destruct Hbad as [H | [[vm' [E' Hv']] | [H | H]]]; congruence.
  - split; [ intros _; left; now exists e | intros _ ].
    now exists (Errorf_w "unmarshalling json: " e).
Qed.

(** C10 (as amended): on every cloud event whose [Vm] pointer is set,
    [eventVmMoRef] returns the reference built from the event's type and
    value together with a nil error; every event [parseCloudEvent] lets
    through is such an event, so the error branch after the call in
    [Handle] is never taken. *)
Theorem eventVmMoRef_never_errs :
  (forall event vm,
     types.Event_Vm (Data event) = Some vm ->
     eventVmMoRef event
       = Returned ({| types.Type_ := types.Type_ (types.Vm vm);
                      types.Value := types.Value (types.Vm vm) |}, None)) /\
  (forall w req event,
     parseCloudEvent w req = Ok event ->
     exists moRef, eventVmMoRef event = Returned (moRef, None)).
Proof.
  split.
  - intros event vm H. unfold eventVmMoRef. now rewrite H.
  - intros w req event H.
    apply parseCloudEvent_Ok_iff in H.
    destruct H as [_ [[vm [Evm _]] _]].
    unfold eventVmMoRef. rewrite Evm. eexists. reflexivity.
Qed.

Lemma eventVmMoRef_never_errs_witness :
  eventVmMoRef (alarmEvent "VM CPU Usage" "red") = Returned (vm42, None) /\
  exists moRef,
    eventVmMoRef (alarmEvent "VM CPU Usage" "red") = Returned (moRef, None).
Proof.
  split.
  - apply (proj1 eventVmMoRef_never_errs
             (alarmEvent "VM CPU Usage" "red") {| types.Vm := vm42 |}).
    reflexivity.
  - apply (proj2 eventVmMoRef_never_errs
             (sampleWorld (Ok (alarmEvent "VM CPU Usage" "red"))
                          (Ok (GovmomiSession 1)) None None [])
             "{...}").
    reflexivity.
Defined.

(** C10 as stated fails on an event whose [Vm] pointer is nil, such as the
    zero event: the field read panics and nothing is returned. *)
Lemma eventVmMoRef_nil_Vm_panics :
  eventVmMoRef cloudEvent_zero = Panicked nil_deref /\
  ~ (forall event, exists moRef, eventVmMoRef event = Returned (moRef, None)).
Proof.
  split; [ reflexivity | ].
  intros H. destruct (H cloudEvent_zero) as [moRef E]. discriminate.
Qed.

(** ** Connection manager *)

(** C7: when no client is installed and either authentication step fails,
    [vsConnect] returns an error and the package variable stays nil; when a
    client is installed, [vsConnect] returns nil at once, with no effect at
    all: no authentication call and the same client, whatever the
    configuration pointer. *)
Theorem vsConnect_all_or_nothing (w : World) (s : Store) :
  (forall cfg,
     client s = None -> authFails w cfg ->
     exists err s',
       vsConnect w (Some cfg) s = (Returned (Some err), s') /\
       client s' = None) /\
  (forall cfg c, client s = Some c -> vsConnect w cfg s = (Returned None, s)).
Proof.
  split.
  - intros cfg Hnil Hfail.
    unfold vsConnect, bind, getClient. rewrite Hnil.
    fold (sdkURL cfg).
    destruct debug; cbn;
      unfold newClient, bind, emit; cbn;
      (destruct Hfail as [[e E] | [gc [e [E L]]]];
       [ rewrite E | rewrite E; cbn in L |- *; rewrite L ]);
      cbn; eexists; eexists; (split; [ reflexivity | assumption ]).
  - intros cfg c Hc. unfold vsConnect, bind, getClient. now rewrite Hc.
Qed.

Lemma vsConnect_all_or_nothing_witness :
  (exists err s',
     vsConnect (sampleWorld (Err "eof") (Ok (GovmomiSession 1))
                            (Some "401 Unauthorized") None [])
               (Some sampleConfig) freshStore = (Returned (Some err), s') /\
     client s' = None) /\
  vsConnect (sampleWorld (Err "eof") (Err "dial tcp: timeout") None None [])
            None
            {| client := Some sampleClient; once := true; trace := [] |}
    = (Returned None,
       {| client := Some sampleClient; once := true; trace := [] |}).
Proof.
  split.
  - apply (proj1 (vsConnect_all_or_nothing _ freshStore) sampleConfig).
    + reflexivity.
    + right. exists (GovmomiSession 1), "401 Unauthorized".
      split; reflexivity.
  - apply (proj2 (vsConnect_all_or_nothing _ _) None sampleClient).
    reflexivity.
Defined.

(** ** The orchestrator *)

(** C8: on a well-formed notification that is not actionable [Handle]
    answers 200 with the "nothing to do" message, and all it does is write
    that message to the log: the client is the one it found, no
    configuration file is loaded and no call leaves the process. *)
Theorem Handle_not_actionable
  (w : World) (req : handler.Request) (s : Store) (event : cloudEvent) :
  parseCloudEvent w (handler.Body req) = Ok event ->
  isStorageInAlarm event = false ->
  exists s',
    Handle w req s
      = (Returned ({| handler.RespBody := nothingToDo;
                      handler.StatusCode := StatusOK |}, None), s') /\
    client s' = client s /\
    once s' = once s /\
    trace s' = (trace s ++ [EvLog (LogText nothingToDo)])%list /\
    filter isRemote (trace s') = filter isRemote (trace s).
Proof.
  intros Hparse Hna. unfold Handle. rewrite Hparse, Hna. cbn.
  eexists. split; [ reflexivity | ]. cbn.
  repeat split.
  rewrite filter_app. cbn. now rewrite app_nil_r.
Qed.

Lemma Handle_not_actionable_witness :
  exists s',
    Handle (sampleWorld (Ok (alarmEvent "VM CPU Usage" "green"))
                        (Ok (GovmomiSession 1)) None None [])
           sampleRequest freshStore
      = (Returned ({| handler.RespBody := nothingToDo;
                      handler.StatusCode := StatusOK |}, None), s') /\
    client s' = None /\
    once s' = false /\
    trace s' = [EvLog (LogText nothingToDo)] /\
    filter isRemote (trace s') = [].
Proof.
  apply (Handle_not_actionable
           (sampleWorld (Ok (alarmEvent "VM CPU Usage" "green"))
                        (Ok (GovmomiSession 1)) None None [])
           sampleRequest freshStore (alarmEvent "VM CPU Usage" "green")).
  - reflexivity.
  - reflexivity.
Defined.

(** *** A VM record without configuration *)

Lemma bind_Returned {A B} (m : M A) (k : A -> M B) (s s1 : Store) (a : A) :
  m s = (Returned a, s1) -> bind m k s = k a s1.
Proof. intros H. unfold bind. now rewrite H. Qed.

Lemma bind_ext {A B} (m : M A) (k1 k2 : A -> M B) (s : Store) :
  (forall a, k1 a = k2 a) -> bind m k1 s = bind m k2 s.
Proof.
  intros H. unfold bind. destruct (m s) as [[a | why] s1]; [ | reflexivity ].
  now rewrite H.
Qed.

Lemma bind_Panicked {A B} (m : M A) (k : A -> M B) (s s1 : Store) why :
  m s = (Panicked why, s1) -> bind m k s = (Panicked why, s1).
Proof. intros H. unfold bind. now rewrite H. Qed.

Lemma actionable_catName (event : cloudEvent) :
  isStorageInAlarm event = true ->
  catName (types.Name (types.Alarm (Data event))) = "config.hardware.numCPU" \/
  catName (types.Name (types.Alarm (Data event))) = "config.hardware.memoryMB".
Proof.
  unfold isStorageInAlarm, catName.
  destruct (String.eqb (types.Name (types.Alarm (Data event))) "VM CPU Usage");
    [ now left | ].
  destruct (String.eqb (types.Name (types.Alarm (Data event))) "VM Memory Usage");
    [ now right | ].
  rewrite andb_false_r. discriminate.
Qed.

(** [selectTag] on an actionable alarm and a record whose [Config] is nil
    dies in the field read, before any tag is looked up. *)
Lemma selectTag_nil_Config
  (w : World) (ce : cloudEvent) (moVM : mo.VirtualMachine) (s : Store) :
  isStorageInAlarm ce = true ->
  mo.Config moVM = None ->
  selectTag w ce moVM s = (Panicked nil_deref, s).
Proof.
  intros Hact Hnil. unfold selectTag.
  apply bind_Panicked. unfold tagNameSwitch, configHardware.
  destruct (actionable_catName ce Hact) as [E | E]; rewrite E, Hnil; reflexivity.
Qed.

(** C2 (the code against the claim): a red CPU alarm for a VM whose
    retrieved record has no configuration.  Configuration loading, both
    logins and the retrieval succeed; [Handle] then dies in a nil
    dereference inside [selectTag] and returns no response at all.  No tag
    lookup was made. *)
Theorem Handle_nil_Config_panics :
  let w := sampleWorld (Ok (alarmEvent "VM CPU Usage" "red"))
                       (Ok (GovmomiSession 1)) None None cpuTags in
  exists s',
    Handle w sampleRequest freshStore = (Panicked nil_deref, s') /\
    (forall m cat, ~ In (EvGetTagsForCategory m cat) (trace s')).
Proof.
  cbv zeta. eexists. split; [ vm_compute; reflexivity | ].
  intros m cat H. cbn in H.
  repeat (destruct H as [H | H]; [ discriminate H | ]). exact H.
Qed.

(** *** No tag for the tier *)



Lemma loadTomlCfg_Ok (w : World) (s : Store) secret cfg :
  tomlLoadFile w cfgPath = Ok secret ->
  tomlUnmarshal w secret = Ok cfg ->
  validateConfig w cfg = None ->
  exists s1,
    loadTomlCfg w cfgPath s = (Returned (Ok cfg), s1) /\
    client s1 = client s /\ once s1 = once s.
Proof.
  intros Hl Hu Hv. unfold loadTomlCfg, bind, emit. cbn.
  rewrite Hl, Hu, Hv. cbn. eexists. repeat split.
Qed.

Lemma vsConnect_connects (w : World) (cfg : vcConfig) (s : Store) c :
  connects w cfg s c ->
  exists s1,
    vsConnect w (Some cfg) s = (Returned None, s1) /\ client s1 = Some c.
Proof.
  intros [Hc | [Hnil [gc [Hg [Hr Ec]]]]].
  - exists s. split; [ | exact Hc ].
    unfold vsConnect, bind, getClient. now rewrite Hc.
  - unfold vsConnect, bind, getClient. rewrite Hnil. fold (sdkURL cfg).
    destruct debug; cbn; unfold newClient, bind, emit; cbn;
      rewrite Hg; cbn in Hr |- *; rewrite Hr; cbn;
      eexists; (split; [ reflexivity | cbn; now subst c ]).
Qed.

Lemma onceDo_emit_client (e : Effect) (s : Store) :
  exists s1, onceDo (emit e) s = (Returned tt, s1) /\ client s1 = client s.
Proof.
  unfold onceDo, emit. destruct (once s); eexists; split; reflexivity.
Qed.

Lemma moVirtualMachine_Returned (w : World) vmMOR (s : Store) c :
  client s = Some c ->
  exists s1,
    moVirtualMachine w vmMOR s
      = (Returned (snd (Retrieve w (govmomi c) [vmMOR] [])), s1) /\
    client s1 = Some c.
Proof.
  intros Hc. unfold moVirtualMachine, derefClient, bind, emit, getClient. cbn.
  rewrite Hc. cbn.
  destruct (Retrieve w (govmomi c) [vmMOR] []) as [[e | ] moVM]; cbn;
    eexists; (split; [ reflexivity | cbn; assumption || reflexivity ]).
Qed.

Lemma tagNameSwitch_tierOf (w : World) event moVM hw tn (s : Store) :
  isStorageInAlarm event = true ->
  mo.Config moVM = Some {| types.Hardware := hw |} ->
  tierOf w event hw = Returned tn ->
  tagNameSwitch w (catName (types.Name (types.Alarm (Data event)))) moVM s
    = (Returned tn, s).
Proof.
  intros Hact Hcfg Htier.
  unfold tagNameSwitch, configHardware, tierOf, catName in *.
  unfold isStorageInAlarm in Hact.
  destruct (String.eqb (types.Name (types.Alarm (Data event))) "VM CPU Usage").
  - cbn. unfold bind. rewrite Hcfg. cbn. now inversion Htier.
  - destruct (String.eqb (types.Name (types.Alarm (Data event)))
                         "VM Memory Usage").
    + cbn. unfold bind, liftOutcome. rewrite Hcfg. cbn. now rewrite Htier.
    + rewrite andb_false_r in Hact. discriminate.
Qed.


(** Up to [selectTag], an invocation that reaches the fetch runs without a
    choice left: [Handle] is [selectTag] on the retrieved record, entered
    with client [c], followed by [afterSelectTag]. *)
Lemma Handle_reaches_selectTag
  (w : World) (req : handler.Request) (s : Store) (c : vsClient)
  (event : cloudEvent) (vmMOR : types.ManagedObjectReference) :
  ReachesFetch w req s c event vmMOR ->
  exists s4,
    client s4 = Some c /\
    Handle w req s
      = bind (selectTag w event (snd (Retrieve w (govmomi c) [vmMOR] [])))
             (afterSelectTag w vmMOR) s4.
Proof.
  intros [Hparse Hact Href [secret [cfg [Hl [Hu [Hv Hconn]]]]]].
  unfold Handle. rewrite Hparse, Hact. cbn [negb].
  destruct (loadTomlCfg_Ok w s secret cfg Hl Hu Hv) as [s1 [E1 [Hc1 Ho1]]].
  rewrite (bind_Returned _ _ _ _ _ E1).
  assert (Hconn1 : connects w cfg s1 c).
  { unfold connects in *. rewrite Hc1. exact Hconn. }
  destruct (vsConnect_connects w cfg s1 c Hconn1) as [s2 [E2 Hc2]].
  rewrite (bind_Returned _ _ _ _ _ E2).
  destruct (onceDo_emit_client EvGoHandleSignal s2) as [s3 [E3 Hc3]].
  rewrite (bind_Returned _ _ _ _ _ E3).
  rewrite Hc2 in Hc3.
  rewrite Href. unfold liftOutcome at 1. unfold bind at 1.
  destruct (moVirtualMachine_Returned w vmMOR s3 c Hc3) as [s4 [E4 Hc4]].
  rewrite (bind_Returned _ _ _ _ _ E4).
  exists s4. split; [ exact Hc4 | ].
  apply bind_ext. intros [[catID tagID] [err | ]]; reflexivity.
Qed.

(** Every invocation that reaches the fetch and gets a record without
    configuration dies in [selectTag]. *)
Lemma Handle_nil_Config_always_panics
  (w : World) (req : handler.Request) (s : Store) (c : vsClient)
  (event : cloudEvent) (vmMOR : types.ManagedObjectReference) :
  ReachesFetch w req s c event vmMOR ->
  mo.Config (snd (Retrieve w (govmomi c) [vmMOR] [])) = None ->
  exists s', Handle w req s = (Panicked nil_deref, s').
Proof.
  intros Hrf Hnil.
  destruct (Handle_reaches_selectTag w req s c event vmMOR Hrf) as [s4 [_ E]].
  exists s4. rewrite E. apply bind_Panicked.
  apply selectTag_nil_Config; [ apply Hrf | exact Hnil ].
Qed.



(** ** Verbosity *)

Lemma nonlog_app (t1 t2 : list Effect) :
  nonlog (t1 ++ t2) = (nonlog t1 ++ nonlog t2)%list.
Proof. apply filter_app. Qed.

Lemma eqv_refl (s : Store) : eqv s s.
Proof. repeat split. Qed.

Section Sim.

Context {A B : Type}.

Lemma sim_ret (a : A) : sim (ret a) (ret a).
Proof. intros s1 s2 H. now split. Qed.

Lemma sim_panic (why : string) : sim (@panic A why) (panic why).
Proof. intros s1 s2 H. now split. Qed.

Lemma sim_liftOutcome (o : Outcome A) : sim (liftOutcome o) (liftOutcome o).
Proof. intros s1 s2 H. now split. Qed.

Lemma sim_bind (m1 m2 : M A) (k1 k2 : A -> M B) :
  sim m1 m2 -> (forall a, sim (k1 a) (k2 a)) ->
  sim (bind m1 k1) (bind m2 k2).
Proof.
  intros Hm Hk s1 s2 H. unfold bind.
  destruct (Hm s1 s2 H) as [Ho Hs].
  destruct (m1 s1) as [[a1 | why1] s1'], (m2 s2) as [[a2 | why2] s2'];
    cbn in Ho, Hs; try discriminate.
  - inversion Ho; subst. now apply Hk.
  - inversion Ho; subst. now split.
Qed.

End Sim.

Lemma sim_emit (e : Effect) : sim (emit e) (emit e).
Proof.
  intros s1 s2 [Hc [Ho Ht]]. split; [ reflexivity | ].
  repeat split; cbn; try assumption.
  rewrite !nonlog_app. now rewrite Ht.
Qed.

(** A log line on one side only. *)
Lemma sim_log (b1 b2 : bool) (msg : string) :
  sim (if b1 then logPrintln msg else ret tt)
      (if b2 then logPrintln msg else ret tt).
Proof.
  intros s1 s2 [Hc [Ho Ht]]. split; [ now destruct b1, b2 | ].
  destruct b1, b2; repeat split; cbn; try assumption;
    rewrite ?nonlog_app; cbn; now rewrite ?app_nil_r.
Qed.

Lemma sim_getClient : sim getClient getClient.
Proof. intros s1 s2 H. split; [ cbn; f_equal; apply H | exact H ]. Qed.

Lemma sim_setClient (c : vsClient) : sim (setClient c) (setClient c).
Proof. intros s1 s2 [Hc [Ho Ht]]. repeat split; assumption. Qed.

Lemma sim_onceDo (f1 f2 : M unit) : sim f1 f2 -> sim (onceDo f1) (onceDo f2).
Proof.
  intros Hf s1 s2 [Hc [Ho Ht]]. unfold onceDo. rewrite Ho.
  destruct (once s2) eqn:E.
  - split; [ reflexivity | ]. cbn. repeat split; congruence.
  - apply Hf. repeat split; assumption.
Qed.

(** One step of a simulation proof between two runs of the same code. *)
Ltac sim_step :=
  lazymatch goal with
  | |- sim (ret _) (ret _) => apply sim_ret
  | |- sim (panic _) (panic _) => apply sim_panic
  | |- sim (liftOutcome _) (liftOutcome _) => apply sim_liftOutcome
  | |- sim (emit _) (emit _) => apply sim_emit
  | |- sim (logPrintln _) (logPrintln _) => apply sim_emit
  | |- sim (if _ then logPrintln _ else ret tt)
           (if _ then logPrintln _ else ret tt) => apply sim_log
  | |- sim getClient getClient => apply sim_getClient
  | |- sim (setClient _) (setClient _) => apply sim_setClient
  | |- sim (onceDo _) (onceDo _) => apply sim_onceDo
  | |- sim (bind _ _) (bind _ _) => apply sim_bind; [ | intros ? ]
  | |- sim (match ?x with _ => _ end) (match ?x with _ => _ end) =>
      destruct x
  end.

Ltac sim_auto := repeat sim_step.

(** The collaborators other than the environment, read through
    [withGetenv]. *)
Ltac same_world :=
  cbn [withGetenv mathLog jsonUnmarshal tomlLoadFile tomlUnmarshal mapRange
       govmomiNewClient restLogin Retrieve GetTagsForCategory AttachTag].

Lemma sim_derefClient : sim derefClient derefClient.
Proof. unfold derefClient. sim_auto. Qed.

Section TwoEnvironments.

Variable w : World.
Variables env1 env2 : string -> string.

Lemma sim_errRespondAndLog (err : error) :
  sim (errRespondAndLog (withGetenv w env1) err)
      (errRespondAndLog (withGetenv w env2) err).
Proof. unfold errRespondAndLog. sim_auto. Qed.

Lemma sim_loadTomlCfg (path : string) :
  sim (loadTomlCfg (withGetenv w env1) path)
      (loadTomlCfg (withGetenv w env2) path).
Proof. unfold loadTomlCfg, validateConfig. same_world. sim_auto. Qed.

Lemma sim_newClient (u : url.URL) (insecure : bool) :
  sim (newClient (withGetenv w env1) u insecure)
      (newClient (withGetenv w env2) u insecure).
Proof. unfold newClient. same_world. sim_auto. Qed.

Lemma sim_vsConnect (cfg : option vcConfig) :
  sim (vsConnect (withGetenv w env1) cfg) (vsConnect (withGetenv w env2) cfg).
Proof. unfold vsConnect. sim_auto. apply sim_newClient. Qed.

Lemma sim_moVirtualMachine (vmMOR : types.ManagedObjectReference) :
  sim (moVirtualMachine (withGetenv w env1) vmMOR)
      (moVirtualMachine (withGetenv w env2) vmMOR).
Proof.
  unfold moVirtualMachine. same_world.
  sim_auto; try apply sim_derefClient.
Qed.

Lemma sim_selectTag (ce : cloudEvent) (moVM : mo.VirtualMachine) :
  sim (selectTag (withGetenv w env1) ce moVM)
      (selectTag (withGetenv w env2) ce moVM).
Proof.
  unfold selectTag, tagNameSwitch, configHardware. same_world.
  sim_auto; try apply sim_derefClient.
Qed.

Lemma sim_Handle (req : handler.Request) :
  sim (Handle (withGetenv w env1) req) (Handle (withGetenv w env2) req).
Proof.
  unfold Handle, parseCloudEvent. same_world.
  sim_auto;
    first [ apply sim_errRespondAndLog | apply sim_loadTomlCfg
          | apply sim_vsConnect | apply sim_moVirtualMachine
          | apply sim_selectTag | apply sim_derefClient ].
Qed.

End TwoEnvironments.

Lemma post_ret {A} (P : A -> Prop) (a : A) : P a -> post P (ret a).
Proof. intros H s. exact H. Qed.

Lemma post_bind {A B} (Q : A -> Prop) (P : B -> Prop) (m : M A) (k : A -> M B) :
  post Q m -> (forall a, Q a -> post P (k a)) -> post P (bind m k).
Proof.
  intros Hm Hk s. unfold bind. specialize (Hm s).
  destruct (m s) as [[a | why] s1]; cbn in *; [ now apply Hk | exact I ].
Qed.

Lemma post_any {A} (m : M A) : post (fun _ => True) m.
Proof. intros s. now destruct (fst (m s)). Qed.

Lemma post_errRespondAndLog (w : World) (stage : string) (err : error) :
  post (fun r => responseShape (r, Some err))
       (errRespondAndLog w (Errorf_w stage err)).
Proof.
  unfold errRespondAndLog.
  apply (post_bind (fun _ => True)); [ apply post_any | intros _ _ ].
  apply post_ret. split; [ reflexivity | now exists stage ].
Qed.

Lemma post_error_exit (w : World) (stage : string) (err : error) :
  post responseShape
       (r <- errRespondAndLog w (Errorf_w stage err) ;; ret (r, Some err)).
Proof.
  eapply post_bind; [ apply post_errRespondAndLog | ].
  intros r Hr. now apply post_ret.
Qed.

(** Step over a call whose result is only case-analysed. *)
Tactic Notation "post_skip" "as" simple_intropattern(pat) :=
  apply (post_bind (fun _ => True)); [ apply post_any | intros pat _ ].

Lemma post_Handle (w : World) (req : handler.Request) :
  post responseShape (Handle w req).
Proof.
  unfold Handle.
  destruct (parseCloudEvent w (handler.Body req)) as [cloudEvt | err];
    [ | apply post_error_exit ].
  destruct (negb (isStorageInAlarm cloudEvt)).
  { post_skip as u. now apply post_ret. }
  post_skip as [cfg | err]; [ | apply post_error_exit ].
  post_skip as [err | ]; [ apply post_error_exit | ].
  post_skip as u.
  post_skip as [vmMOR [err | ]]; [ apply post_error_exit | ].
  post_skip as moVM.
  post_skip as [[catID tagID] [err | ]]; [ apply post_error_exit | ].
  post_skip as c. post_skip as u'.
  destruct (AttachTag w (tagMgr c) tagID vmMOR) as [err | ].
  - post_skip as u''. apply post_error_exit.
  - post_skip as u''. now apply post_ret.
Qed.

(** C9: every response [Handle] returns carries status 200 or 500, and on
    an error status the error's text is the body; and two runs that differ
    only in the environment (so in [write_debug]) end the same way, with
    the same response, the same client and the same effects apart from
    log lines. *)
Theorem Handle_verbosity_noninterference
  (w : World) (env1 env2 : string -> string)
  (req : handler.Request) (s : Store) :
  let run1 := Handle (withGetenv w env1) req s in
  let run2 := Handle (withGetenv w env2) req s in
  fst run1 = fst run2 /\
  client (snd run1) = client (snd run2) /\
  once (snd run1) = once (snd run2) /\
  nonlog (trace (snd run1)) = nonlog (trace (snd run2)) /\
  (forall resp err,
     fst run1 = Returned (resp, err) ->
     (handler.StatusCode resp = StatusOK \/
      handler.StatusCode resp = StatusInternalServerError) /\
     (forall e, err = Some e ->
        handler.StatusCode resp = StatusInternalServerError /\
        exists stage, handler.RespBody resp = Errorf_w stage e)).
Proof.
  cbv zeta.
  destruct (sim_Handle w env1 env2 req s s (eqv_refl s)) as [Ho [Hc [Hon Ht]]].
  repeat split; try assumption.
  - pose proof (post_Handle (withGetenv w env1) req s) as H1.
    rewrite H in H1. unfold responseShape in H1. cbn in H1.
    destruct err as [e | ]; [ right; apply H1 | now left ].
  - pose proof (post_Handle (withGetenv w env1) req s) as H1.
    rewrite H in H1. unfold responseShape in H1. cbn in H1.
    subst err. apply H1.
  - pose proof (post_Handle (withGetenv w env1) req s) as H1.
    rewrite H in H1. unfold responseShape in H1. cbn in H1.
    subst err. apply H1.
Qed.

Lemma Handle_verbosity_noninterference_witness :
  let w := sampleWorld (Ok (alarmEvent "VM Memory Usage" "red"))
                       (Ok (GovmomiSession 1)) (Some "401 Unauthorized")
                       None [] in
  fst (Handle (withGetenv w (fun _ => "true")) sampleRequest freshStore)
  = fst (Handle (withGetenv w (fun _ => "")) sampleRequest freshStore) /\
  trace (snd (Handle (withGetenv w (fun _ => "true")) sampleRequest freshStore))
  <> trace (snd (Handle (withGetenv w (fun _ => "")) sampleRequest freshStore)).
Proof.
  cbv zeta. split.
  - apply (Handle_verbosity_noninterference
             (sampleWorld (Ok (alarmEvent "VM Memory Usage" "red"))
                          (Ok (GovmomiSession 1)) (Some "401 Unauthorized")
                          None [])
             (fun _ => "true") (fun _ => "") sampleRequest freshStore).
  - vm_compute. discriminate.
Defined.


(** * Further properties of the code *)

(** ** Tier policy, beyond powers of two *)

(** X1: whatever the memory size and whatever [math.Log] answers,
    [incMemVal] either panics on a negative shift count or prints a power
    of two between [2^0] and [2^23]: no tier above 8388608 is ever named. *)
Theorem incMemVal_never_above_cap
  (Log : Float64.float64 -> Float64.float64) (mem : Float64.float64) :
  (exists e, 0 <= e <= 23 /\ incMemVal Log mem = Returned (Itoa (2 ^ e))) \/
  incMemVal Log mem = Panicked negative_shift.
Proof.
  unfold incMemVal, shl_one.
  generalize (GoInt.wrap (memExponent Log mem + 1)). intros x.
  destruct (Z.ltb_spec x 23) as [Hlt | Hge].
  - destruct (Z.ltb_spec x 0) as [Hneg | Hpos]; [ now right | left ].
    exists x. split; [ lia | ].
    rewrite Z.shiftl_1_l. rewrite wrap_in_range; [ reflexivity | ].
    assert (0 < 2 ^ x) by (apply Z.pow_pos_nonneg; lia).
    assert (2 ^ x < 2 ^ 23) by (apply Z.pow_lt_mono_r; lia).
    unfold GoInt.in_range, GoInt.min_int, GoInt.max_int. lia.
  - left. exists 23. split; [ lia | reflexivity ].
Qed.

(** Minus infinity divided by anything is not a number that fits an
    [int]. *)
Lemma to_int_of_minus_infinity_over (y : Float64.float64) :
  Float64.to_int (Float64.div (S754_infinity true) y) = GoInt.min_int.
Proof. destruct y as [s | s | | s m e]; reflexivity. Qed.

(** A memory size of zero: [math.Log] answers minus infinity, the exponent
    read off is the smallest [int], and the shift count is negative. *)
Lemma incMemVal_zero (Log : Float64.float64 -> Float64.float64) :
  Log (S754_zero false) = S754_infinity true ->
  incMemVal Log (Float64.of_int 0) = Panicked negative_shift.
Proof.
  intros H. unfold incMemVal, memExponent, Float64.Log10.
  change (Float64.of_int 0) with (S754_zero false). rewrite H.
  change (Float64.mul (S754_infinity true) Float64.one_over_Ln10)
    with (S754_infinity true).
  rewrite to_int_of_minus_infinity_over. reflexivity.
Qed.

(** ** Classification *)

(** X2: [catName] names a category exactly for the two recognised alarm
    names and is empty for every other name; so an event that
    [isStorageInAlarm] accepts always has a category. *)
Theorem catName_recognised :
  (forall name,
     (catName name = "config.hardware.numCPU" <-> name = "VM CPU Usage") /\
     (catName name = "config.hardware.memoryMB" <-> name = "VM Memory Usage") /\
     (catName name = "" <->
        name <> "VM CPU Usage" /\ name <> "VM Memory Usage")) /\
  (forall event,
     isStorageInAlarm event = true ->
     catName (types.Name (types.Alarm (Data event))) <> "").
Proof.
  assert (H : forall name,
     (catName name = "config.hardware.numCPU" <-> name = "VM CPU Usage") /\
     (catName name = "config.hardware.memoryMB" <-> name = "VM Memory Usage") /\
     (catName name = "" <->
        name <> "VM CPU Usage" /\ name <> "VM Memory Usage")).
  { intros name. unfold catName.
    destruct (String.eqb_spec name "VM CPU Usage") as [Ec | Ec].
    - subst name. repeat split; intros G; try reflexivity; try discriminate.
      destruct G as [G _]. now elim G.
    - destruct (String.eqb_spec name "VM Memory Usage") as [Em | Em].
      + subst name. repeat split; intros G; try reflexivity; try discriminate.
        destruct G as [_ G]. now elim G.
      + repeat split; try intros G; try discriminate; try contradiction;
          try assumption; try reflexivity. }
  split; [ exact H | ].
  intros event Hact Hempty.
  apply (proj2 (proj2 (H _))) in Hempty. destruct Hempty as [Hc Hm].
  unfold isStorageInAlarm in Hact.
  apply String.eqb_neq in Hc. apply String.eqb_neq in Hm.
  rewrite Hc, Hm, andb_false_r in Hact. discriminate.
Qed.

Lemma catName_recognised_witness :
  catName "VM CPU Usage" = "config.hardware.numCPU" /\
  catName (types.Name (types.Alarm (Data (alarmEvent "VM Memory Usage" "red"))))
    <> "".
Proof.
  split.
  - apply (proj1 (proj1 catName_recognised "VM CPU Usage")). reflexivity.
  - apply (proj2 catName_recognised (alarmEvent "VM Memory Usage" "red")).
    reflexivity.
Defined.

(** ** Tag lookup *)

(** X3: [findCatAndTagID] answers with the identifiers of the first tag
    in the list whose name is the one asked for, whatever comes after it;
    and identifiers that are not both empty always belong to a tag of the
    list with that name. *)
Theorem findCatAndTagID_first_match :
  (forall pre t post tn,
     (forall t', In t' pre -> tags.Name t' <> tn) ->
     tags.Name t = tn ->
     findCatAndTagID (pre ++ t :: post) tn = (tags.CategoryID t, tags.ID t)) /\
  (forall ts tn catID tagID,
     findCatAndTagID ts tn = (catID, tagID) ->
     (catID, tagID) <> ("", "") ->
     exists t, In t ts /\ tags.Name t = tn /\
               tags.CategoryID t = catID /\ tags.ID t = tagID).
Proof.
  split.
  - intros pre t post tn Hpre Ht.
    induction pre as [ | p pre IH]; cbn.
    + apply String.eqb_eq in Ht. now rewrite Ht.
    + destruct (String.eqb_spec (tags.Name p) tn) as [E | _].
      * exfalso. apply (Hpre p); [ now left | exact E ].
      * apply IH. intros t' Hin. apply Hpre. now right.
  - intros ts tn catID tagID. induction ts as [ | t ts IH]; cbn.
    + intros E Hne. now elim Hne.
    + destruct (String.eqb_spec (tags.Name t) tn) as [E | _].
      * intros Eq _. inversion Eq; subst. exists t. repeat split. now left.
      * intros Eq Hne. destruct (IH Eq Hne) as [t' [Hin H]].
        exists t'. split; [ now right | exact H ].
Qed.

Lemma findCatAndTagID_first_match_witness :
  findCatAndTagID cpuTags "3" = ("cat-cpu", "tag-3") /\
  exists t, In t cpuTags /\ tags.Name t = "2" /\
            tags.CategoryID t = "cat-cpu" /\ tags.ID t = "tag-2".
Proof.
  split.
  - apply (proj1 findCatAndTagID_first_match
             [ {| tags.ID := "tag-2"; tags.Name := "2";
                  tags.CategoryID := "cat-cpu" |} ]
             {| tags.ID := "tag-3"; tags.Name := "3";
                tags.CategoryID := "cat-cpu" |} [] "3").
    + intros t' [E | []]. subst t'. cbn. discriminate.
    + reflexivity.
  - apply (proj2 findCatAndTagID_first_match cpuTags "2" "cat-cpu" "tag-2").
    + reflexivity.
    + discriminate.
Defined.

(** ** Configuration *)

Lemma firstEmpty_None (kvs : list (string * string)) :
  firstEmpty kvs = None <-> (forall k v, In (k, v) kvs -> v <> "").
Proof.
  induction kvs as [ | [k v] kvs IH]; cbn.
  - split; [ intros _ k v [] | reflexivity ].
  - destruct (String.eqb_spec v "") as [E | E].
    + split; [ discriminate | ]. intros H. exfalso.
      apply (H k v); [ now left | exact E ].
    + rewrite IH. split.
      * intros H k' v' [Eq | Hin]; [ inversion Eq; now subst | now apply (H k') ].
      * intros H k' v' Hin. apply (H k'). now right.
Qed.

Lemma firstEmpty_Some (kvs : list (string * string)) (e : error) :
  firstEmpty kvs = Some e -> exists k, In (k, "") kvs /\ e = missingField k.
Proof.
  induction kvs as [ | [k v] kvs IH]; cbn; [ discriminate | ].
  destruct (String.eqb_spec v "") as [E | E].
  - intros H. inversion H. subst. exists k. split; [ now left | reflexivity ].
  - intros H. destruct (IH H) as [k' [Hin He]].
    exists k'. split; [ now right | exact He ].
Qed.

Lemma complete_requiredFields (cfg : vcConfig) :
  complete cfg <-> (forall k v, In (k, v) (requiredFields cfg) -> v <> "").
Proof.
  unfold complete, requiredFields. split.
  - intros [Hs [Hu Hp]] k v [E | [E | [E | []]]]; inversion E; now subst.
  - intros H. repeat split.
    + apply (H "vcenter server"). now left.
    + apply (H "vcenter user"). right. now left.
    + apply (H "vcenter password"). right. right. now left.
Qed.

Lemma validateConfig_None (w : World) (cfg : vcConfig) :
  rangesAsGo w -> validateConfig w cfg = None <-> complete cfg.
Proof.
  intros Hperm. unfold validateConfig. fold (requiredFields cfg).
  rewrite firstEmpty_None, complete_requiredFields.
  specialize (Hperm (requiredFields cfg)).
  split; intros H k v Hin; apply (H k).
  - now apply (Permutation_in _ Hperm).
  - now apply (Permutation_in _ (Permutation_sym Hperm)).
Qed.

Lemma validateConfig_Some (w : World) (cfg : vcConfig) (e : error) :
  rangesAsGo w -> validateConfig w cfg = Some e ->
  exists k, In (k, "") (requiredFields cfg) /\ e = missingField k.
Proof.
  intros Hperm H. unfold validateConfig in H. fold (requiredFields cfg) in H.
  destruct (firstEmpty_Some _ _ H) as [k [Hin He]].
  exists k. split; [ | exact He ].
  apply (Permutation_in _ (Permutation_sym (Hperm (requiredFields cfg)))).
  exact Hin.
Qed.

(** X4: in whatever order [range] walks the map of required fields,
    [validateConfig] accepts a configuration exactly when server, user and
    password are all non-empty; and when it rejects one, the message names
    a required field that is in fact empty. *)
Theorem validateConfig_complete (w : World) (cfg : vcConfig) :
  rangesAsGo w ->
  (validateConfig w cfg = None <-> complete cfg) /\
  (forall e, validateConfig w cfg = Some e ->
     exists k, In (k, "") (requiredFields cfg) /\ e = missingField k).
Proof.
  intros Hperm. split.
  - now apply validateConfig_None.
  - intros e. now apply validateConfig_Some.
Qed.

Lemma validateConfig_complete_witness :
  let w := sampleWorld (Err "eof") (Err "eof") None None [] in
  let noUser :=
    {| VCenter := {| Server := "vc.example.org"; User := "";
                     Password := "secret"; Insecure := false |} |} in
  (validateConfig w sampleConfig = None <-> complete sampleConfig) /\
  (forall e, validateConfig w noUser = Some e ->
     exists k, In (k, "") (requiredFields noUser) /\ e = missingField k).
Proof.
  cbv zeta. split.
  - apply (validateConfig_complete
             (sampleWorld (Err "eof") (Err "eof") None None []) sampleConfig).
    intros kvs. apply Permutation_refl.
  - apply (validateConfig_complete
             (sampleWorld (Err "eof") (Err "eof") None None [])).
    intros kvs. apply Permutation_refl.
Defined.

(** X5: [loadTomlCfg] never panics and never touches the connection: its
    one effect is the read of the file.  A configuration it returns is the
    decoded file and is complete; an error it returns is that of the read
    or of the decoding behind the name of the stage, or names a required
    field that is empty. *)
Theorem loadTomlCfg_outcomes (w : World) (path : string) (s : Store) :
  rangesAsGo w ->
  exists r,
    loadTomlCfg w path s
      = (Returned r,
         {| client := client s; once := once s;
            trace := (trace s ++ [EvLoadFile path])%list |}) /\
    match r with
    | Ok cfg =>
        complete cfg /\
        exists secret,
          tomlLoadFile w path = Ok secret /\ tomlUnmarshal w secret = Ok cfg
    | Err e =>
        (exists e0, tomlLoadFile w path = Err e0 /\
                    e = Errorf_w "loading vcconfig.toml: " e0) \/
        (exists secret e0,
           tomlLoadFile w path = Ok secret /\
           tomlUnmarshal w secret = Err e0 /\
           e = Errorf_w "unmarshalling vcconfig.toml: " e0) \/
        (exists secret cfg k,
           tomlLoadFile w path = Ok secret /\
           tomlUnmarshal w secret = Ok cfg /\
           In (k, "") (requiredFields cfg) /\ e = missingField k)
    end.
Proof.
  intros Hperm. unfold loadTomlCfg, bind, emit. cbn.
  destruct (tomlLoadFile w path) as [secret | e0] eqn:El.
  - destruct (tomlUnmarshal w secret) as [cfg | e0] eqn:Eu.
    + destruct (validateConfig w cfg) as [e | ] eqn:Ev.
      * eexists. split; [ reflexivity | ]. right. right.
        destruct (validateConfig_Some w cfg e Hperm Ev) as [k [Hin He]].
        exists secret, cfg, k. now repeat split.
      * eexists. split; [ reflexivity | ]. split.
        -- now apply (validateConfig_None w cfg Hperm).
        -- exists secret. now split.
    + eexists. split; [ reflexivity | ]. right. left.
      exists secret, e0. now repeat split.
  - eexists. split; [ reflexivity | ]. left. exists e0. now split.
Qed.

Lemma loadTomlCfg_outcomes_witness :
  let w := sampleWorld (Err "eof") (Err "eof") None None [] in
  rangesAsGo w /\
  exists r,
    loadTomlCfg w cfgPath freshStore
      = (Returned r,
         {| client := None; once := false; trace := [EvLoadFile cfgPath] |}) /\
    match r with
    | Ok cfg =>
        complete cfg /\
        exists secret,
          tomlLoadFile w cfgPath = Ok secret /\ tomlUnmarshal w secret = Ok cfg
    | Err e =>
        (exists e0, tomlLoadFile w cfgPath = Err e0 /\
                    e = Errorf_w "loading vcconfig.toml: " e0) \/
        (exists secret e0,
           tomlLoadFile w cfgPath = Ok secret /\
           tomlUnmarshal w secret = Err e0 /\
           e = Errorf_w "unmarshalling vcconfig.toml: " e0) \/
        (exists secret cfg k,
           tomlLoadFile w cfgPath = Ok secret /\
           tomlUnmarshal w secret = Ok cfg /\
           In (k, "") (requiredFields cfg) /\ e = missingField k)
    end.
Proof.
  cbv zeta. split; [ intros kvs; apply Permutation_refl | ].
  apply (loadTomlCfg_outcomes
           (sampleWorld (Err "eof") (Err "eof") None None [])
           cfgPath freshStore).
  intros kvs. apply Permutation_refl.
Defined.


(** ** Stepping relations

    A relation between the store before and the store after that is
    reflexive and transitive is kept by [ret], [panic] and [bind]; which
    effects and assignments keep it depends on the relation. *)
Section Steps.

Variable R : Store -> Store -> Prop.
Hypothesis R_refl : forall s, R s s.
Hypothesis R_trans : forall s1 s2 s3, R s1 s2 -> R s2 s3 -> R s1 s3.

Lemma steps_ret {A} (a : A) : steps R (ret a).
Proof. intros s. apply R_refl. Qed.

Lemma steps_panic {A} (why : string) : steps R (@panic A why).
Proof. intros s. apply R_refl. Qed.

Lemma steps_liftOutcome {A} (o : Outcome A) : steps R (liftOutcome o).
Proof. intros s. apply R_refl. Qed.

Lemma steps_getClient : steps R getClient.
Proof. intros s. apply R_refl. Qed.

Lemma steps_bind {A B} (m : M A) (k : A -> M B) :
  steps R m -> (forall a, steps R (k a)) -> steps R (bind m k).
Proof.
  intros Hm Hk s. unfold bind. specialize (Hm s).
  destruct (m s) as [[a | why] s1]; cbn in *; [ | exact Hm ].
  apply (R_trans _ s1); [ exact Hm | apply Hk ].
Qed.

Lemma steps_derefClient : steps R derefClient.
Proof.
  unfold derefClient. apply steps_bind; [ apply steps_getClient | ].
  intros [c | ]; [ apply steps_ret | apply steps_panic ].
Qed.

End Steps.

(** One step of a proof that a piece of code keeps a relation; [emitL]
    says which effects keep it. *)
Ltac steps_step refl trans emitL :=
  lazymatch goal with
  | |- steps _ (ret _) => apply (steps_ret _ refl)
  | |- steps _ (panic _) => apply (steps_panic _ refl)
  | |- steps _ (liftOutcome _) => apply (steps_liftOutcome _ refl)
  | |- steps _ getClient => apply (steps_getClient _ refl)
  | |- steps _ derefClient => apply (steps_derefClient _ refl trans)
  | |- steps _ (emit _) => apply emitL; reflexivity
  | |- steps _ (logPrintln _) => apply emitL; reflexivity
  | |- steps _ (bind _ _) => apply (steps_bind _ trans); [ | intros ? ]
  | |- steps _ (match ?x with _ => _ end) => destruct x
  end.

Lemma frame_refl (s : Store) : frame s s.
Proof. repeat split. Qed.

Lemma frame_trans (s1 s2 s3 : Store) : frame s1 s2 -> frame s2 s3 -> frame s1 s3.
Proof.
  intros [A1 [B1 [C1 D1]]] [A2 [B2 [C2 D2]]]. repeat split; congruence.
Qed.

Lemma frame_emit (e : Effect) :
  isSignalStart e || isAuth e = false -> steps frame (emit e).
Proof.
  intros H s. apply orb_false_iff in H. destruct H as [Hs Ha].
  repeat split; cbn; rewrite filter_app; cbn;
    rewrite ?Hs, ?Ha; now rewrite app_nil_r.
Qed.

Lemma sameAttach_refl (s : Store) : sameAttach s s.
Proof. reflexivity. Qed.

Lemma sameAttach_trans (s1 s2 s3 : Store) :
  sameAttach s1 s2 -> sameAttach s2 s3 -> sameAttach s1 s3.
Proof. unfold sameAttach. congruence. Qed.

Lemma sameAttach_emit (e : Effect) :
  isAttach e = false -> steps sameAttach (emit e).
Proof.
  intros H s. unfold sameAttach. cbn. rewrite filter_app. cbn.
  rewrite H. now rewrite app_nil_r.
Qed.

Ltac frame_auto := repeat steps_step frame_refl frame_trans frame_emit.
Ltac sameAttach_auto :=
  repeat steps_step sameAttach_refl sameAttach_trans sameAttach_emit.

Section Frames.

Variable w : World.

Lemma frame_errRespondAndLog (err : error) : steps frame (errRespondAndLog w err).
Proof. unfold errRespondAndLog. frame_auto. Qed.

Lemma frame_loadTomlCfg (path : string) : steps frame (loadTomlCfg w path).
Proof. unfold loadTomlCfg. frame_auto. Qed.

Lemma frame_moVirtualMachine vmMOR : steps frame (moVirtualMachine w vmMOR).
Proof. unfold moVirtualMachine. frame_auto. Qed.

Lemma frame_selectTag ce moVM : steps frame (selectTag w ce moVM).
Proof. unfold selectTag, tagNameSwitch, configHardware. frame_auto. Qed.

Lemma frame_afterSelectTag vmMOR sel : steps frame (afterSelectTag w vmMOR sel).
Proof.
  unfold afterSelectTag. frame_auto; apply frame_errRespondAndLog.
Qed.

Lemma sameAttach_errRespondAndLog (err : error) :
  steps sameAttach (errRespondAndLog w err).
Proof. unfold errRespondAndLog. sameAttach_auto. Qed.

Lemma sameAttach_loadTomlCfg (path : string) :
  steps sameAttach (loadTomlCfg w path).
Proof. unfold loadTomlCfg. sameAttach_auto. Qed.

Lemma sameAttach_vsConnect cfg : steps sameAttach (vsConnect w cfg).
Proof.
  unfold vsConnect, newClient. sameAttach_auto.
  intros s. reflexivity.
Qed.

Lemma sameAttach_onceDo : steps sameAttach (onceDo (emit EvGoHandleSignal)).
Proof.
  intros s. unfold onceDo, emit, sameAttach. destruct (once s); cbn;
    [ reflexivity | ].
  rewrite filter_app. cbn. now rewrite app_nil_r.
Qed.

Lemma sameAttach_moVirtualMachine vmMOR :
  steps sameAttach (moVirtualMachine w vmMOR).
Proof. unfold moVirtualMachine. sameAttach_auto. Qed.

Lemma sameAttach_selectTag ce moVM : steps sameAttach (selectTag w ce moVM).
Proof. unfold selectTag, tagNameSwitch, configHardware. sameAttach_auto. Qed.

End Frames.

(** ** Assertions along a run *)

Lemma hoare_bind {A B} (P : Store -> Prop) (m : M A) (k : A -> M B)
  (Q1 : Outcome A -> Store -> Prop) (Q : Outcome B -> Store -> Prop) :
  hoare P m Q1 ->
  (forall a, hoare (Q1 (Returned a)) (k a) Q) ->
  (forall why s, Q1 (Panicked why) s -> Q (Panicked why) s) ->
  hoare P (bind m k) Q.
Proof.
  intros Hm Hk Hp s HP. unfold bind. specialize (Hm s HP).
  destruct (m s) as [[a | why] s1]; cbn in *.
  - now apply Hk.
  - now apply Hp.
Qed.

Lemma hoare_steps {A} (R : Store -> Store -> Prop) (P : Store -> Prop)
  (m : M A) :
  steps R m -> (forall s s', R s s' -> P s -> P s') ->
  hoare P m (fun _ => P).
Proof. intros Hm Hst s HP. apply (Hst s); [ apply Hm | exact HP ]. Qed.

Lemma hoare_ret {A} (P : Store -> Prop) (a : A) (Q : Outcome A -> Store -> Prop) :
  (forall s, P s -> Q (Returned a) s) -> hoare P (ret a) Q.
Proof. intros H s HP. now apply H. Qed.

(** The skeleton of [Handle]: an assertion [P] that holds up to
    [vsConnect], [Pmid] between a successful [vsConnect] and [once.Do],
    [P] again up to [selectTag], and [Q] wherever the invocation ends. *)
Section HandleSkeleton.

Variable w : World.
Variables P Pmid Q : Store -> Prop.

Hypothesis P_Q : forall s, P s -> Q s.
Hypothesis H_err : forall e, hoare P (errRespondAndLog w e) (fun _ => Q).
Hypothesis H_log : forall msg, hoare P (logPrintln msg) (fun _ => Q).
Hypothesis H_load : forall path, hoare P (loadTomlCfg w path) (fun _ => P).
Hypothesis H_conn :
  forall cfg,
    hoare P (vsConnect w (Some cfg))
          (fun o s => match o with
                      | Returned None => Pmid s
                      | _ => P s
                      end).
Hypothesis H_once : hoare Pmid (onceDo (emit EvGoHandleSignal)) (fun _ => P).
Hypothesis H_mo : forall r, hoare P (moVirtualMachine w r) (fun _ => P).
Hypothesis H_sel : forall ce vm, hoare P (selectTag w ce vm) (fun _ => P).
Hypothesis H_after : forall r sel, hoare P (afterSelectTag w r sel) (fun _ => Q).

Lemma error_exit_hoare (e err : error) :
  hoare P (r <- errRespondAndLog w e ;; ret (r, Some err)) (fun _ => Q).
Proof.
  apply (hoare_bind _ _ _ (fun _ => Q)); [ apply H_err | | trivial ].
  intros r. now apply hoare_ret.
Qed.

Lemma Handle_hoare (req : handler.Request) :
  hoare P (Handle w req) (fun _ => Q).
Proof.
  unfold Handle.
  destruct (parseCloudEvent w (handler.Body req)) as [cloudEvt | err];
    [ | apply error_exit_hoare ].
  destruct (negb (isStorageInAlarm cloudEvt)).
  { apply (hoare_bind _ _ _ (fun _ => Q)); [ apply H_log | | trivial ].
    intros u. now apply hoare_ret. }
  apply (hoare_bind _ _ _ (fun _ => P)); [ apply H_load | | intros; now apply P_Q ].
  intros [cfg | err]; [ | apply error_exit_hoare ].
  eapply hoare_bind; [ apply H_conn | | intros why s H; now apply P_Q ].
  intros [err | ]; [ apply error_exit_hoare | ].
  apply (hoare_bind _ _ _ (fun _ => P)); [ apply H_once | | intros; now apply P_Q ].
  intros u.
  apply (hoare_bind _ _ _ (fun _ => P));
    [ intros s HP; exact HP | | intros; now apply P_Q ].
  intros [vmMOR [err | ]]; [ apply error_exit_hoare | ].
  apply (hoare_bind _ _ _ (fun _ => P)); [ apply H_mo | | intros; now apply P_Q ].
  intros moVM.
  apply (hoare_bind _ _ _ (fun _ => P)); [ apply H_sel | | intros; now apply P_Q ].
  intros [[catID tagID] [err | ]].
  - apply (H_after vmMOR (catID, tagID, Some err)).
  - apply (H_after vmMOR (catID, tagID, None)).
Qed.

End HandleSkeleton.

(** ** The connection over a sequence of invocations *)

Lemma sessionInv_stable : forall s s', frame s s' -> sessionInv s -> sessionInv s'.
Proof.
  intros s s' [Hc [Ho [Hs _]]]. unfold sessionInv. now rewrite Hc, Ho, Hs.
Qed.

Lemma vsConnect_sessionInv (w : World) (cfg : vcConfig) :
  hoare sessionInv (vsConnect w (Some cfg))
        (fun o s => match o with
                    | Returned None => sessionMid s
                    | _ => sessionInv s
                    end).
Proof.
  intros s HI. unfold vsConnect, bind, getClient.
  unfold sessionInv in HI.
  destruct (client s) as [c | ] eqn:Ec; cbn.
  - unfold sessionMid. rewrite Ec.
    destruct HI as [Hw H]. split; [ exact Hw | now left ].
  - destruct HI as [Ho Hs].
    destruct (debug w); cbn; unfold newClient, bind, emit; cbn;
      destruct (govmomiNewClient w _ _) as [gc | e]; cbn;
      try destruct (restLogin w _ _) as [e | ]; cbn;
      unfold sessionInv, sessionMid; cbn; rewrite ?Ec;
      rewrite ?filter_app, ?Hs; cbn;
      try (split; [ split; reflexivity | right; now split ]);
      now split.
Qed.

Lemma onceDo_sessionInv :
  hoare sessionMid (onceDo (emit EvGoHandleSignal)) (fun _ => sessionInv).
Proof.
  intros s H. unfold onceDo, emit, sessionMid, sessionInv in *.
  destruct (client s) as [c | ] eqn:Ec; [ | contradiction ].
  destruct H as [Hw [[Ho Hs] | [Ho Hs]]]; rewrite Ho; cbn; rewrite ?Ec.
  - split; [ exact Hw | now split ].
  - rewrite filter_app, Hs. split; [ exact Hw | now split ].
Qed.

Lemma Handle_sessionInv (w : World) (req : handler.Request) :
  hoare sessionInv (Handle w req) (fun _ => sessionInv).
Proof.
  apply (Handle_hoare w sessionInv sessionMid sessionInv); try trivial.
  - intros e. apply (hoare_steps frame); [ apply frame_errRespondAndLog | apply sessionInv_stable ].
  - intros msg. apply (hoare_steps frame); [ | apply sessionInv_stable ].
    unfold logPrintln. now apply frame_emit.
  - intros path. apply (hoare_steps frame); [ apply frame_loadTomlCfg | apply sessionInv_stable ].
  - apply vsConnect_sessionInv.
  - apply onceDo_sessionInv.
  - intros r. apply (hoare_steps frame); [ apply frame_moVirtualMachine | apply sessionInv_stable ].
  - intros ce vm. apply (hoare_steps frame); [ apply frame_selectTag | apply sessionInv_stable ].
  - intros r sel. apply (hoare_steps frame); [ apply frame_afterSelectTag | apply sessionInv_stable ].
Qed.

(** X6: in a process that starts fresh, after any sequence of
    invocations (whatever each one meets, also after panics) the signal
    handler has been started at most once, and it has been started exactly
    when a client is installed; the installed client is the one
    [newClient] builds, its REST client over its session and its tag
    manager over its REST client. *)
Theorem serve_session_invariant (calls : list (World * handler.Request)) :
  let s := serve calls freshStore in
  sessionInv s /\
  (List.length (filter isSignalStart (trace s)) <= 1)%nat /\
  (once s = true <-> client s <> None) /\
  (forall c, client s = Some c -> wellBuilt c).
Proof.
  cbv zeta.
  assert (H : forall s0, sessionInv s0 -> sessionInv (serve calls s0)).
  { induction calls as [ | [w req] calls IH]; intros s0 H0; [ exact H0 | ].
    cbn. apply IH. now apply Handle_sessionInv. }
  assert (HI : sessionInv (serve calls freshStore)).
  { apply H. unfold sessionInv. cbn. now split. }
  split; [ exact HI | ].
  unfold sessionInv in HI.
  destruct (client (serve calls freshStore)) as [c | ].
  - destruct HI as [Hw [Ho Hs]]. rewrite Hs, Ho.
    split; [ cbn; lia | ].
    split; [ split; [ intros _; discriminate | reflexivity ] | ].
    intros c' E. inversion E. subst c'. exact Hw.
  - destruct HI as [Ho Hs]. rewrite Hs, Ho.
    split; [ cbn; lia | ].
    split; [ split; [ discriminate | intros H'; now elim H' ] | discriminate ].
Qed.

Lemma connectedAs_stable (c : vsClient) (auth : list Effect) :
  forall s s', frame s s' -> connectedAs c auth s -> connectedAs c auth s'.
Proof.
  intros s s' [Hc [_ [_ Ha]]] [H1 H2]. split; congruence.
Qed.

Lemma Handle_connectedAs (w : World) (req : handler.Request)
  (c : vsClient) (auth : list Effect) :
  hoare (connectedAs c auth) (Handle w req) (fun _ => connectedAs c auth).
Proof.
  apply (Handle_hoare w (connectedAs c auth) (connectedAs c auth)
                      (connectedAs c auth)); try trivial.
  - intros e. apply (hoare_steps frame); [ apply frame_errRespondAndLog | apply connectedAs_stable ].
  - intros msg. apply (hoare_steps frame); [ | apply connectedAs_stable ].
    unfold logPrintln. now apply frame_emit.
  - intros path. apply (hoare_steps frame); [ apply frame_loadTomlCfg | apply connectedAs_stable ].
  - intros cfg s [Hc Ha]. unfold vsConnect, bind, getClient. rewrite Hc. cbn.
    now split.
  - intros s [Hc Ha]. unfold onceDo, emit. destruct (once s); cbn.
    + now split.
    + split; cbn; [ exact Hc | ]. rewrite filter_app. cbn. now rewrite app_nil_r.
  - intros r. apply (hoare_steps frame); [ apply frame_moVirtualMachine | apply connectedAs_stable ].
  - intros ce vm. apply (hoare_steps frame); [ apply frame_selectTag | apply connectedAs_stable ].
  - intros r sel. apply (hoare_steps frame); [ apply frame_afterSelectTag | apply connectedAs_stable ].
Qed.

(** X7: once a client is installed, no sequence of invocations replaces
    it or authenticates again: the client stays the same and no call to
    [govmomi.NewClient] or to the REST login is added, whatever the
    configuration files and the endpoint answer later. *)
Theorem serve_keeps_client
  (calls : list (World * handler.Request)) (s : Store) (c : vsClient) :
  client s = Some c ->
  client (serve calls s) = Some c /\
  filter isAuth (trace (serve calls s)) = filter isAuth (trace s).
Proof.
  intros Hc.
  assert (H : forall s0, connectedAs c (filter isAuth (trace s)) s0 ->
                         connectedAs c (filter isAuth (trace s)) (serve calls s0)).
  { induction calls as [ | [w req] calls IH]; intros s0 H0; [ exact H0 | ].
    cbn. apply IH. now apply Handle_connectedAs. }
  apply H. now split.
Qed.

Lemma serve_keeps_client_witness :
  let w1 := sampleWorld (Ok (alarmEvent "VM CPU Usage" "red"))
                        (Err "dial tcp: timeout") None
                        (Some (hardware 2 4096)) cpuTags in
  let w2 := sampleWorld (Ok (alarmEvent "VM Memory Usage" "red"))
                        (Ok (GovmomiSession 7)) None None [] in
  let s := {| client := Some sampleClient; once := true; trace := [] |} in
  client (serve [(w1, sampleRequest); (w2, sampleRequest)] s)
    = Some sampleClient /\
  filter isAuth (trace (serve [(w1, sampleRequest); (w2, sampleRequest)] s))
    = [].
Proof.
  cbv zeta.
  apply (serve_keeps_client _
           {| client := Some sampleClient; once := true; trace := [] |}
           sampleClient).
  reflexivity.
Defined.

Lemma serve_session_invariant_witness :
  let w1 := sampleWorld (Ok (alarmEvent "VM CPU Usage" "red"))
                        (Ok (GovmomiSession 1)) None None cpuTags in
  let w2 := sampleWorld (Ok (alarmEvent "VM CPU Usage" "red"))
                        (Ok (GovmomiSession 2)) None
                        (Some (hardware 2 4096)) cpuTags in
  let s := serve [(w1, sampleRequest); (w2, sampleRequest)] freshStore in
  (once s = true <-> client s <> None) /\
  wellBuilt sampleClient.
Proof.
  cbv zeta.
  pose proof (serve_session_invariant
                [(sampleWorld (Ok (alarmEvent "VM CPU Usage" "red"))
                              (Ok (GovmomiSession 1)) None None cpuTags,
                  sampleRequest);
                 (sampleWorld (Ok (alarmEvent "VM CPU Usage" "red"))
                              (Ok (GovmomiSession 2)) None
                              (Some (hardware 2 4096)) cpuTags,
                  sampleRequest)]) as H.
  cbv zeta in H. destruct H as [_ [_ [Hiff Hw]]].
  split; [ exact Hiff | ].
  apply Hw. reflexivity.
Defined.

(** ** What one invocation may do *)

Lemma afterSelectTag_attach (w : World) vmMOR sel (att : list Effect) :
  hoare (fun s => filter isAttach (trace s) = att)
        (afterSelectTag w vmMOR sel)
        (fun _ => attachedAtMostOnce att).
Proof.
  intros s HP. destruct sel as [[catID tagID] [err | ]];
    unfold afterSelectTag, errRespondAndLog, derefClient, logPrintln,
           bind, getClient, emit, ret, panic, attachedAtMostOnce.
  - destruct (debug w); cbn; rewrite ?filter_app; cbn;
      rewrite ?app_nil_r; now left.
  - destruct (client s) as [c | ]; cbn; [ | now left ].
    destruct (AttachTag w (tagMgr c) tagID vmMOR) as [err | ];
      destruct (debug w); cbn; rewrite ?filter_app; cbn;
      rewrite ?app_nil_r, HP; right; eexists; reflexivity.
Qed.

Lemma sameAttach_stable (att : list Effect) :
  forall s s', sameAttach s s' ->
    filter isAttach (trace s) = att -> filter isAttach (trace s') = att.
Proof. unfold sameAttach. congruence. Qed.

(** X8: one invocation asks the endpoint to attach a tag at most once,
    whatever it meets and however it ends. *)
Theorem Handle_attaches_at_most_once
  (w : World) (req : handler.Request) (s : Store) :
  filter isAttach (trace (snd (Handle w req s)))
    = filter isAttach (trace s) \/
  exists m tagID ref,
    filter isAttach (trace (snd (Handle w req s)))
      = (filter isAttach (trace s) ++ [EvAttachTag m tagID ref])%list.
Proof.
  assert (H : attachedAtMostOnce (filter isAttach (trace s))
                                 (snd (Handle w req s))).
  { apply (Handle_hoare w
             (fun s0 => filter isAttach (trace s0) = filter isAttach (trace s))
             (fun s0 => filter isAttach (trace s0) = filter isAttach (trace s))
             (attachedAtMostOnce (filter isAttach (trace s))));
      try reflexivity.
    - intros s0 H0. now left.
    - intros e s0 H0. left.
      apply (sameAttach_stable _ s0); [ apply sameAttach_errRespondAndLog | exact H0 ].
    - intros msg s0 H0. left.
      apply (sameAttach_stable _ s0); [ | exact H0 ].
      unfold logPrintln. now apply sameAttach_emit.
    - intros path.
      apply (hoare_steps sameAttach); [ apply sameAttach_loadTomlCfg | apply sameAttach_stable ].
    - intros cfg s0 H0.
      pose proof (sameAttach_vsConnect w (Some cfg) s0) as Hs.
      assert (Hk : filter isAttach (trace (snd (vsConnect w (Some cfg) s0)))
                   = filter isAttach (trace s))
        by (apply (sameAttach_stable _ s0); assumption).
      destruct (fst (vsConnect w (Some cfg) s0)) as [[e | ] | why]; exact Hk.
    - apply (hoare_steps sameAttach); [ apply sameAttach_onceDo | apply sameAttach_stable ].
    - intros r.
      apply (hoare_steps sameAttach); [ apply sameAttach_moVirtualMachine | apply sameAttach_stable ].
    - intros ce vm.
      apply (hoare_steps sameAttach); [ apply sameAttach_selectTag | apply sameAttach_stable ].
    - intros r sel. apply afterSelectTag_attach. }
  destruct H as [H | [e H]]; [ now left | right ].
  assert (He : In e (filter isAttach (trace (snd (Handle w req s))))).
  { rewrite H. apply in_or_app. right. now left. }
  apply filter_In in He. destruct He as [_ He].
  destruct e; try discriminate. now exists m, tagID, ref.
Qed.

(** X9: a payload that [parseCloudEvent] rejects is answered with status
    500 and the error behind "parsing cloud event data: "; the error is
    that of the decoder behind "unmarshalling json: ", or one of the two
    validation messages, the one about the VM reference whenever that is
    missing or empty; nothing but a log line happens. *)
Theorem Handle_rejects_payload
  (w : World) (req : handler.Request) (s : Store) (err : error) :
  parseCloudEvent w (handler.Body req) = Err err ->
  (exists s',
     Handle w req s
       = (Returned
            ({| handler.RespBody := Errorf_w "parsing cloud event data: " err;
                handler.StatusCode := StatusInternalServerError |},
             Some err), s') /\
     client s' = client s /\ once s' = once s /\
     filter isRemote (trace s') = filter isRemote (trace s)) /\
  match jsonUnmarshal w (handler.Body req) with
  | Err e => err = Errorf_w "unmarshalling json: " e
  | Ok event =>
      match types.Event_Vm (Data event) with
      | None => err = "empty VM managed object reference"
      | Some vm =>
          if String.eqb (types.Value (types.Vm vm)) ""
          then err = "empty VM managed object reference"
          else err = "insufficent alarm infomration" /\
               (types.Name (types.Alarm (Data event)) = "" \/
                types.To (Data event) = "")
      end
  end.
Proof.
  intros Hparse. split.
  - unfold Handle. rewrite Hparse.
    unfold errRespondAndLog, logPrintln, bind, emit, ret.
    destruct (debug w); cbn; eexists; (split; [ reflexivity | ]); cbn;
      repeat split.
    rewrite filter_app. cbn. now rewrite app_nil_r.
  - unfold parseCloudEvent, isValidEvent in Hparse.
    destruct (jsonUnmarshal w (handler.Body req)) as [event | e];
      [ | now inversion Hparse ].
    destruct (types.Event_Vm (Data event)) as [vm | ];
      [ | now inversion Hparse ].
    destruct (String.eqb (types.Value (types.Vm vm)) "");
      [ now inversion Hparse | ].
    destruct (String.eqb_spec (types.Name (types.Alarm (Data event))) "")
      as [En | En]; cbn in Hparse.
    + inversion Hparse. split; [ reflexivity | now left ].
    + destruct (String.eqb_spec (types.To (Data event)) "") as [Et | Et];
        inversion Hparse. split; [ reflexivity | now right ].
Qed.

Lemma Handle_rejects_payload_witness :
  exists s',
    Handle (sampleWorld (Ok (alarmEvent "" "red")) (Err "eof") None None [])
           sampleRequest freshStore
      = (Returned
           ({| handler.RespBody :=
                 "parsing cloud event data: insufficent alarm infomration";
               handler.StatusCode := StatusInternalServerError |},
            Some "insufficent alarm infomration"), s') /\
    client s' = None /\ once s' = false /\
    filter isRemote (trace s') = [].
Proof.
  apply (proj1 (Handle_rejects_payload
                  (sampleWorld (Ok (alarmEvent "" "red")) (Err "eof")
                               None None [])
                  sampleRequest freshStore "insufficent alarm infomration"
                  eq_refl)).
Defined.

(** X10: when the configuration cannot be loaded, an actionable
    notification is answered with status 500 and the error behind
    "loading of vcconfig: ", and the connection is left alone: same
    client, same [once], no authentication call, also when a client is
    already installed. *)
Theorem Handle_config_failure
  (w : World) (req : handler.Request) (s s1 : Store)
  (event : cloudEvent) (err : error) :
  parseCloudEvent w (handler.Body req) = Ok event ->
  isStorageInAlarm event = true ->
  loadTomlCfg w cfgPath s = (Returned (Err err), s1) ->
  exists s',
    Handle w req s
      = (Returned
           ({| handler.RespBody := Errorf_w "loading of vcconfig: " err;
               handler.StatusCode := StatusInternalServerError |},
            Some err), s') /\
    frame s s' /\ sameAttach s s'.
Proof.
  intros Hparse Hact Hload. unfold Handle. rewrite Hparse, Hact. cbn [negb].
  rewrite (bind_Returned _ _ _ _ _ Hload).
  pose proof (frame_loadTomlCfg w cfgPath s) as F1.
  pose proof (sameAttach_loadTomlCfg w cfgPath s) as A1.
  rewrite Hload in F1, A1. cbn in F1, A1.
  pose proof (frame_errRespondAndLog w (Errorf_w "loading of vcconfig: " err) s1)
    as F2.
  pose proof (sameAttach_errRespondAndLog w
                (Errorf_w "loading of vcconfig: " err) s1) as A2.
  unfold errRespondAndLog, logPrintln, bind, emit, ret in *.
  destruct (debug w); cbn in *; eexists;
    (split; [ reflexivity | split;
              [ exact (frame_trans _ _ _ F1 F2)
              | exact (sameAttach_trans _ _ _ A1 A2) ] ]).
Qed.

Lemma Handle_config_failure_witness :
  let w := cpuAlarmWorld (Err "open: no such file or directory")
                         (None, {| mo.Config := None |}) (Ok cpuTags) in
  let s := {| client := Some sampleClient; once := true; trace := [] |} in
  exists s',
    Handle w sampleRequest s
      = (Returned
           ({| handler.RespBody :=
                 "loading of vcconfig: loading vcconfig.toml: open: no such file or directory";
               handler.StatusCode := StatusInternalServerError |},
            Some "loading vcconfig.toml: open: no such file or directory"),
         s') /\
    frame s s' /\ sameAttach s s'.
Proof.
  cbv zeta.
  eapply (Handle_config_failure _ sampleRequest _ _
            (alarmEvent "VM CPU Usage" "red")
            "loading vcconfig.toml: open: no such file or directory");
    reflexivity.
Defined.



(** ** From the fetch to the tag *)

Lemma steps_at {A} (R : Store -> Store -> Prop) (m : M A) (s s1 : Store) o :
  steps R m -> m s = (o, s1) -> R s s1.
Proof. intros H E. specialize (H s). now rewrite E in H. Qed.

(** The run up to [selectTag] attaches nothing. *)
Lemma Handle_reaches_selectTag_quietly
  (w : World) (req : handler.Request) (s : Store) (c : vsClient)
  (event : cloudEvent) (vmMOR : types.ManagedObjectReference) :
  ReachesFetch w req s c event vmMOR ->
  exists s4,
    client s4 = Some c /\ sameAttach s s4 /\
    Handle w req s
      = bind (selectTag w event (snd (Retrieve w (govmomi c) [vmMOR] [])))
             (afterSelectTag w vmMOR) s4.
Proof.
  intros [Hparse Hact Href [secret [cfg [Hl [Hu [Hv Hconn]]]]]].
  unfold Handle. rewrite Hparse, Hact. cbn [negb].
  destruct (loadTomlCfg_Ok w s secret cfg Hl Hu Hv) as [s1 [E1 [Hc1 Ho1]]].
  rewrite (bind_Returned _ _ _ _ _ E1).
  assert (Hconn1 : connects w cfg s1 c).
  { unfold connects in *. rewrite Hc1. exact Hconn. }
  destruct (vsConnect_connects w cfg s1 c Hconn1) as [s2 [E2 Hc2]].
  rewrite (bind_Returned _ _ _ _ _ E2).
  destruct (onceDo_emit_client EvGoHandleSignal s2) as [s3 [E3 Hc3]].
  rewrite (bind_Returned _ _ _ _ _ E3).
  rewrite Hc2 in Hc3.
  rewrite Href. unfold liftOutcome at 1. unfold bind at 1.
  destruct (moVirtualMachine_Returned w vmMOR s3 c Hc3) as [s4 [E4 Hc4]].
  rewrite (bind_Returned _ _ _ _ _ E4).
  exists s4. split; [ exact Hc4 | ]. split.
  - apply (sameAttach_trans _ s1);
      [ exact (steps_at _ _ _ _ _ (sameAttach_loadTomlCfg w cfgPath) E1) | ].
    apply (sameAttach_trans _ s2);
      [ exact (steps_at _ _ _ _ _ (sameAttach_vsConnect w (Some cfg)) E2) | ].
    apply (sameAttach_trans _ s3);
      [ exact (steps_at _ _ _ _ _ sameAttach_onceDo E3) | ].
    exact (steps_at _ _ _ _ _ (sameAttach_moVirtualMachine w vmMOR) E4).
  - apply bind_ext. intros [[catID tagID] [err | ]]; reflexivity.
Qed.

Lemma sameLookup_refl (s : Store) : sameLookup s s.
Proof. reflexivity. Qed.

Lemma sameLookup_trans (s1 s2 s3 : Store) :
  sameLookup s1 s2 -> sameLookup s2 s3 -> sameLookup s1 s3.
Proof. unfold sameLookup. congruence. Qed.

Lemma sameLookup_emit (e : Effect) :
  isLookup e = false -> steps sameLookup (emit e).
Proof.
  intros H s. unfold sameLookup. cbn. rewrite filter_app. cbn.
  rewrite H. now rewrite app_nil_r.
Qed.

Ltac sameLookup_auto :=
  repeat steps_step sameLookup_refl sameLookup_trans sameLookup_emit.

Lemma sameLookup_errRespondAndLog (w : World) (err : error) :
  steps sameLookup (errRespondAndLog w err).
Proof. unfold errRespondAndLog. sameLookup_auto. Qed.

Lemma sameLookup_loadTomlCfg (w : World) (path : string) :
  steps sameLookup (loadTomlCfg w path).
Proof. unfold loadTomlCfg. sameLookup_auto. Qed.

Lemma sameLookup_vsConnect (w : World) cfg : steps sameLookup (vsConnect w cfg).
Proof.
  unfold vsConnect, newClient. sameLookup_auto.
  intros s. reflexivity.
Qed.

Lemma sameLookup_onceDo : steps sameLookup (onceDo (emit EvGoHandleSignal)).
Proof.
  intros s. unfold onceDo, emit, sameLookup. destruct (once s); cbn;
    [ reflexivity | ].
  rewrite filter_app. cbn. now rewrite app_nil_r.
Qed.

Lemma sameLookup_moVirtualMachine (w : World) vmMOR :
  steps sameLookup (moVirtualMachine w vmMOR).
Proof. unfold moVirtualMachine. sameLookup_auto. Qed.

(** The run up to [selectTag] neither attaches a tag nor asks for a tag
    list. *)
Lemma Handle_reaches_selectTag_before_lookup
  (w : World) (req : handler.Request) (s : Store) (c : vsClient)
  (event : cloudEvent) (vmMOR : types.ManagedObjectReference) :
  ReachesFetch w req s c event vmMOR ->
  exists s4,
    client s4 = Some c /\ sameAttach s s4 /\ sameLookup s s4 /\
    Handle w req s
      = bind (selectTag w event (snd (Retrieve w (govmomi c) [vmMOR] [])))
             (afterSelectTag w vmMOR) s4.
Proof.
  intros [Hparse Hact Href [secret [cfg [Hl [Hu [Hv Hconn]]]]]].
  unfold Handle. rewrite Hparse, Hact. cbn [negb].
  destruct (loadTomlCfg_Ok w s secret cfg Hl Hu Hv) as [s1 [E1 [Hc1 Ho1]]].
  rewrite (bind_Returned _ _ _ _ _ E1).
  assert (Hconn1 : connects w cfg s1 c).
  { unfold connects in *. rewrite Hc1. exact Hconn. }
  destruct (vsConnect_connects w cfg s1 c Hconn1) as [s2 [E2 Hc2]].
  rewrite (bind_Returned _ _ _ _ _ E2).
  destruct (onceDo_emit_client EvGoHandleSignal s2) as [s3 [E3 Hc3]].
  rewrite (bind_Returned _ _ _ _ _ E3).
  rewrite Hc2 in Hc3.
  rewrite Href. unfold liftOutcome at 1. unfold bind at 1.
  destruct (moVirtualMachine_Returned w vmMOR s3 c Hc3) as [s4 [E4 Hc4]].
  rewrite (bind_Returned _ _ _ _ _ E4).
  exists s4. split; [ exact Hc4 | ]. split; [ | split ].
  - apply (sameAttach_trans _ s1);
      [ exact (steps_at _ _ _ _ _ (sameAttach_loadTomlCfg w cfgPath) E1) | ].
    apply (sameAttach_trans _ s2);
      [ exact (steps_at _ _ _ _ _ (sameAttach_vsConnect w (Some cfg)) E2) | ].
    apply (sameAttach_trans _ s3);
      [ exact (steps_at _ _ _ _ _ sameAttach_onceDo E3) | ].
    exact (steps_at _ _ _ _ _ (sameAttach_moVirtualMachine w vmMOR) E4).
  - apply (sameLookup_trans _ s1);
      [ exact (steps_at _ _ _ _ _ (sameLookup_loadTomlCfg w cfgPath) E1) | ].
    apply (sameLookup_trans _ s2);
      [ exact (steps_at _ _ _ _ _ (sameLookup_vsConnect w (Some cfg)) E2) | ].
    apply (sameLookup_trans _ s3);
      [ exact (steps_at _ _ _ _ _ sameLookup_onceDo E3) | ].
    exact (steps_at _ _ _ _ _ (sameLookup_moVirtualMachine w vmMOR) E4).
  - apply bind_ext. intros [[catID tagID] [err | ]]; reflexivity.
Qed.

Lemma derefClient_Some (s : Store) (c : vsClient) :
  client s = Some c -> derefClient s = (Returned c, s).
Proof.
  intros Hc. unfold derefClient, bind, getClient. cbn. now rewrite Hc.
Qed.

(** When the tag list cannot be fetched, [selectTag] hands the error on
    after that one request. *)
Lemma selectTag_lookup_error
  (w : World) event moVM hw tn err (s : Store) c :
  isStorageInAlarm event = true ->
  mo.Config moVM = Some {| types.Hardware := hw |} ->
  tierOf w event hw = Returned tn ->
  client s = Some c ->
  GetTagsForCategory w (tagMgr c)
    (catName (types.Name (types.Alarm (Data event)))) = Err err ->
  selectTag w event moVM s
    = (Returned ("", "", Some err),
       {| client := client s; once := once s;
          trace := trace s
                   ++ [EvGetTagsForCategory (tagMgr c)
                         (catName (types.Name (types.Alarm (Data event))))] |}).
Proof.
  intros Hact Hcfg Htier Hc Htags. unfold selectTag.
  rewrite (bind_Returned _ _ _ _ _
             (tagNameSwitch_tierOf w event moVM hw tn s Hact Hcfg Htier)).
  rewrite (bind_Returned _ _ _ _ _ (derefClient_Some s c Hc)).
  unfold bind, emit. cbn. rewrite Htags. reflexivity.
Qed.

(** X12: when the tag list of the category cannot be fetched, the
    invocation is answered with status 500 and the endpoint's error behind
    "retrieving VM managed reference object: "; that one request for the
    list is the only one the invocation makes, and no tag is attached. *)
Theorem Handle_lookup_failure
  (w : World) (req : handler.Request) (s : Store) (c : vsClient)
  (event : cloudEvent) (vmMOR : types.ManagedObjectReference)
  (hw : types.VirtualHardware) (tn : string) (err : error) :
  ReachesTier w req s c event vmMOR hw tn ->
  GetTagsForCategory w (tagMgr c)
    (catName (types.Name (types.Alarm (Data event)))) = Err err ->
  exists s',
    Handle w req s
      = (Returned
           ({| handler.RespBody :=
                 Errorf_w "retrieving VM managed reference object: " err;
               handler.StatusCode := StatusInternalServerError |},
            Some err), s') /\
    sameAttach s s' /\
    In (EvGetTagsForCategory (tagMgr c)
          (catName (types.Name (types.Alarm (Data event))))) (trace s') /\
    filter isLookup (trace s')
      = (filter isLookup (trace s)
           ++ [EvGetTagsForCategory (tagMgr c)
                 (catName (types.Name (types.Alarm (Data event))))])%list.
Proof.
  intros [Hrf Hcfg Htier] Htags.
  destruct (Handle_reaches_selectTag_before_lookup w req s c event vmMOR Hrf)
    as [s4 [Hc4 [A4 [L4 E]]]].
  rewrite E. clear E.
  rewrite (bind_Returned _ _ _ _ _
             (selectTag_lookup_error w event _ hw tn err s4 c
                (rf_actionable _ _ _ _ _ _ Hrf) Hcfg Htier Hc4 Htags)).
  unfold afterSelectTag, errRespondAndLog, logPrintln, bind, emit, ret.
  unfold sameAttach, sameLookup in *.
  destruct (debug w); cbn; eexists;
    (split; [ reflexivity | ]); cbn;
    rewrite ?filter_app; cbn; rewrite ?app_nil_r;
    (split; [ congruence | ]);
    (split; [ rewrite ?in_app_iff; cbn; tauto | congruence ]).
Qed.

Lemma Handle_lookup_failure_witness :
  let w := cpuAlarmWorld (Ok (TomlTree cfgPath))
                         (None, {| mo.Config := Some (hardware 2 4096) |})
                         (Err "403 Forbidden") in
  exists s',
    Handle w sampleRequest freshStore
      = (Returned
           ({| handler.RespBody :=
                 "retrieving VM managed reference object: 403 Forbidden";
               handler.StatusCode := StatusInternalServerError |},
            Some "403 Forbidden"), s') /\
    sameAttach freshStore s' /\
    In (EvGetTagsForCategory (tagMgr sampleClient) "config.hardware.numCPU")
       (trace s') /\
    filter isLookup (trace s')
      = [EvGetTagsForCategory (tagMgr sampleClient) "config.hardware.numCPU"].
Proof.
  cbv zeta.
  eapply (Handle_lookup_failure _ sampleRequest freshStore sampleClient
            (alarmEvent "VM CPU Usage" "red") vm42
            {| types.NumCPU := 2; types.MemoryMB := 4096 |} "3"
            "403 Forbidden").
  - constructor; try reflexivity.
    constructor; try reflexivity.
    exists (TomlTree cfgPath), sampleConfig.
    repeat split; try reflexivity.
    right. split; [ reflexivity | ].
    exists (GovmomiSession 1). repeat split; reflexivity.
  - reflexivity.
Defined.




(** X14: a memory alarm for a VM whose record says zero megabytes.  The
    logarithm of zero is minus infinity, the exponent read off is the
    smallest [int], and the shift count is negative: the invocation dies
    in a panic, returns no response and attaches no tag. *)
Theorem Handle_zero_memory_panics
  (w : World) (req : handler.Request) (s : Store) (c : vsClient)
  (event : cloudEvent) (vmMOR : types.ManagedObjectReference)
  (hw : types.VirtualHardware) :
  ReachesFetch w req s c event vmMOR ->
  types.Name (types.Alarm (Data event)) = "VM Memory Usage" ->
  mo.Config (snd (Retrieve w (govmomi c) [vmMOR] []))
    = Some {| types.Hardware := hw |} ->
  types.MemoryMB hw = 0 ->
  mathLog w (S754_zero false) = S754_infinity true ->
  exists s',
    Handle w req s = (Panicked negative_shift, s') /\ sameAttach s s'.
Proof.
  intros Hrf Hname Hcfg Hmem Hlog.
  destruct (Handle_reaches_selectTag_quietly w req s c event vmMOR Hrf)
    as [s4 [Hc4 [A4 E]]].
  exists s4. split; [ | exact A4 ].
  rewrite E. apply bind_Panicked. unfold selectTag. apply bind_Panicked.
  unfold tagNameSwitch, configHardware. rewrite Hname, Hcfg. cbn.
  unfold bind, liftOutcome, ret. cbn. rewrite Hmem.
  now rewrite (incMemVal_zero (mathLog w) Hlog).
Qed.

Lemma Handle_zero_memory_panics_witness :
  let w := withMathLog
             (sampleWorld (Ok (alarmEvent "VM Memory Usage" "red"))
                          (Ok (GovmomiSession 1)) None
                          (Some (hardware 2 0)) [])
             logOfZero in
  exists s',
    Handle w sampleRequest freshStore = (Panicked negative_shift, s') /\
    sameAttach freshStore s'.
Proof.
  cbv zeta.
  apply (Handle_zero_memory_panics
           (withMathLog
              (sampleWorld (Ok (alarmEvent "VM Memory Usage" "red"))
                           (Ok (GovmomiSession 1)) None
                           (Some (hardware 2 0)) [])
              logOfZero)
           sampleRequest freshStore sampleClient
           (alarmEvent "VM Memory Usage" "red") vm42
           {| types.NumCPU := 2; types.MemoryMB := 0 |}).
  - constructor; try reflexivity.
    exists (TomlTree cfgPath), sampleConfig.
    repeat split; try reflexivity.
    right. split; [ reflexivity | ].
    exists (GovmomiSession 1). repeat split; reflexivity.
  - reflexivity.
  - reflexivity.
  - reflexivity.
  - reflexivity.
Defined.

(** ** Connecting and fetching *)

(** X15: a call of [vsConnect] that returns nil leaves a client
    installed; when there was none before, it is the well-built client
    over the session opened at the address of the configuration, "https",
    the configured server, path "sdk", with the configured user and
    password, and the REST login with that user succeeded.  From then on
    every call of [vsConnect] returns nil and changes nothing. *)
Theorem vsConnect_installs_once
  (w : World) (cfg : option vcConfig) (s s1 : Store) :
  vsConnect w cfg s = (Returned None, s1) ->
  (exists c,
     client s1 = Some c /\
     (client s = None ->
      wellBuilt c /\
      exists cf,
        cfg = Some cf /\
        govmomiNewClient w (sdkURL cf) (Insecure (VCenter cf))
          = Ok (govmomi c) /\
        restLogin w (rest c) (url.User (sdkURL cf)) = None)) /\
  (forall w' cfg', vsConnect w' cfg' s1 = (Returned None, s1)).
Proof.
  intros H.
  assert (Hc : exists c,
     client s1 = Some c /\
     (client s = None ->
      wellBuilt c /\
      exists cf,
        cfg = Some cf /\
        govmomiNewClient w (sdkURL cf) (Insecure (VCenter cf))
          = Ok (govmomi c) /\
        restLogin w (rest c) (url.User (sdkURL cf)) = None)).
  { unfold vsConnect, bind, getClient in H.
    destruct (client s) as [c | ] eqn:Ec.
    - inversion H. subst s1. exists c. split; [ exact Ec | discriminate ].
    - destruct cfg as [cf | ]; [ | discriminate ].
      cbv zeta in H.
      unfold newClient, logPrintln, bind, emit, setClient, ret in H.
      destruct (govmomiNewClient w (sdkURL cf) (Insecure (VCenter cf)))
        as [gc | e] eqn:Eg; pose proof Eg as Eg'; unfold sdkURL in Eg';
        [ | destruct (debug w); cbn in H; rewrite Eg' in H; discriminate ].
      destruct (restLogin w (restNewClient gc) (url.User (sdkURL cf)))
        as [e | ] eqn:El; pose proof El as El'; cbn in El';
        [ destruct (debug w); cbn in H; rewrite Eg' in H; cbn in H;
          rewrite El' in H; discriminate | ].
      exists {| govmomi := gc; rest := restNewClient gc;
                tagMgr := tagsNewManager (restNewClient gc) |}.
      split.
      + destruct (debug w); cbn in H; rewrite Eg' in H; cbn in H;
          rewrite El' in H; cbn in H; inversion H; reflexivity.
      + intros _. split; [ split; reflexivity | ].
        exists cf. repeat split; assumption. }
  split; [ exact Hc | ].
  destruct Hc as [c [Hc _]].
  intros w' cfg'. unfold vsConnect, bind, getClient. now rewrite Hc.
Qed.

Lemma vsConnect_installs_once_witness :
  let w := sampleWorld (Err "eof") (Ok (GovmomiSession 1)) None None [] in
  let s1 := {| client := Some sampleClient; once := false;
               trace := [EvNewClient (sdkURL sampleConfig) true;
                         EvRestLogin (restNewClient (GovmomiSession 1))
                                     (url.User (sdkURL sampleConfig))] |} in
  (exists c, client s1 = Some c /\
     (client freshStore = None ->
      wellBuilt c /\
      exists cf,
        Some sampleConfig = Some cf /\
        govmomiNewClient w (sdkURL cf) (Insecure (VCenter cf))
          = Ok (govmomi c) /\
        restLogin w (rest c) (url.User (sdkURL cf)) = None)) /\
  (forall w' cfg', vsConnect w' cfg' s1 = (Returned None, s1)).
Proof.
  cbv zeta.
  apply (vsConnect_installs_once
           (sampleWorld (Err "eof") (Ok (GovmomiSession 1)) None None [])
           (Some sampleConfig) freshStore).
  reflexivity.
Defined.

(** X16: with a client installed, [moVirtualMachine] asks the endpoint
    once, for the one object it was given, over the client's session, and
    hands back whatever record the retrieval left, also when the retrieval
    failed: the failure is only logged.  Without a client it panics before
    any request is made. *)
Theorem moVirtualMachine_one_retrieval
  (w : World) (vmMOR : types.ManagedObjectReference) (s : Store) :
  (forall c,
     client s = Some c ->
     exists s',
       moVirtualMachine w vmMOR s
         = (Returned (snd (Retrieve w (govmomi c) [vmMOR] [])), s') /\
       client s' = Some c /\ once s' = once s /\
       filter isRemote (trace s')
         = (filter isRemote (trace s) ++ [EvRetrieve (govmomi c) [vmMOR]])%list /\
       (forall e, fst (Retrieve w (govmomi c) [vmMOR] []) = Some e ->
                  In (EvLog (LogRetrieveError e)) (trace s'))) /\
  (client s = None ->
   exists s',
     moVirtualMachine w vmMOR s = (Panicked nil_deref, s') /\
     filter isRemote (trace s') = filter isRemote (trace s)).
Proof.
  split.
  - intros c Hc.
    unfold moVirtualMachine, derefClient, bind, getClient, emit, ret. cbn.
    rewrite Hc. cbn.
    destruct (Retrieve w (govmomi c) [vmMOR] []) as [[e | ] moVM]; cbn;
      eexists; (split; [ reflexivity | ]); cbn;
      rewrite ?filter_app; cbn; rewrite ?app_nil_r;
      (repeat split; try assumption);
      intros e' E; inversion E; subst;
      rewrite ?in_app_iff; cbn; tauto.
  - intros Hnil.
    unfold moVirtualMachine, derefClient, bind, getClient, emit, panic. cbn.
    rewrite Hnil. cbn. eexists. split; [ reflexivity | ]. cbn.
    rewrite filter_app. cbn. now rewrite app_nil_r.
Qed.

Lemma moVirtualMachine_one_retrieval_witness :
  let w := cpuAlarmWorld (Ok (TomlTree cfgPath))
                         (Some "ManagedObjectNotFound", {| mo.Config := None |})
                         (Ok []) in
  let s := {| client := Some sampleClient; once := true; trace := [] |} in
  (exists s',
     moVirtualMachine w vm42 s = (Returned {| mo.Config := None |}, s') /\
     client s' = Some sampleClient /\ once s' = true /\
     filter isRemote (trace s') = [EvRetrieve (GovmomiSession 1) [vm42]] /\
     (forall e, Some "ManagedObjectNotFound" = Some e ->
                In (EvLog (LogRetrieveError e)) (trace s'))) /\
  exists s',
    moVirtualMachine w vm42 freshStore = (Panicked nil_deref, s') /\
    filter isRemote (trace s') = [].
Proof.
  cbv zeta. split.
  - apply (proj1 (moVirtualMachine_one_retrieval
                    (cpuAlarmWorld (Ok (TomlTree cfgPath))
                       (Some "ManagedObjectNotFound", {| mo.Config := None |})
                       (Ok []))
                    vm42
                    {| client := Some sampleClient; once := true;
                       trace := [] |}) sampleClient).
    reflexivity.
  - apply (proj2 (moVirtualMachine_one_retrieval
                    (cpuAlarmWorld (Ok (TomlTree cfgPath))
                       (Some "ManagedObjectNotFound", {| mo.Config := None |})
                       (Ok []))
                    vm42 freshStore)).
    reflexivity.
Defined.

(** ** Shutdown *)

(** X17: [logout] logs out of the session first and of the REST client
    only when that succeeded: a failure of the first logout leaves the
    REST session logged in.  It returns nil exactly when both logouts
    succeed, and otherwise the error of the logout that failed behind the
    name of that step; neither logout is tried twice. *)
Theorem logout_stops_at_first_failure
  (e : Sessions) (clt : vsClient)
  (o : Outcome (option error)) (eff : list ShutdownEffect) :
  logout e (Some clt) = (o, eff) ->
  (o = Returned None <->
     govmomiLogout e (govmomi clt) = None /\ restLogout e (rest clt) = None) /\
  (In (EvRestLogout (rest clt)) eff <-> govmomiLogout e (govmomi clt) = None) /\
  (eff = [EvGovmomiLogout (govmomi clt)] \/
   eff = [EvGovmomiLogout (govmomi clt); EvRestLogout (rest clt)]) /\
  (forall err,
     o = Returned (Some err) ->
     (exists e0, govmomiLogout e (govmomi clt) = Some e0 /\
                 err = Errorf_w "govmomi api logout failed: " e0) \/
     (exists e0, govmomiLogout e (govmomi clt) = None /\
                 restLogout e (rest clt) = Some e0 /\
                 err = Errorf_w "rest api logout failed: " e0)).
Proof.
  unfold logout. intros H.
  destruct (govmomiLogout e (govmomi clt)) as [e0 | ] eqn:Eg.
  - inversion H. subst o eff.
    split; [ split; [ discriminate | intros [E _]; discriminate ] | ].
    split; [ split; [ intros [E | []]; discriminate | discriminate ] | ].
    split; [ now left | ].
    intros err E. inversion E. left. now exists e0.
  - destruct (restLogout e (rest clt)) as [e0 | ] eqn:Er;
      inversion H; subst o eff.
    + split; [ split; [ discriminate | intros [_ E]; discriminate ] | ].
      split; [ split; [ reflexivity | intros _; right; now left ] | ].
      split; [ now right | ].
      intros err E. inversion E. right. exists e0. now repeat split.
    + split; [ split; [ intros _; now split | reflexivity ] | ].
      split; [ split; [ reflexivity | intros _; right; now left ] | ].
      split; [ now right | ].
      intros err E. discriminate.
Qed.

Lemma logout_stops_at_first_failure_witness :
  let e := {| govmomiLogout := fun _ => Some "session expired";
              restLogout := fun _ => None |} in
  (In (EvRestLogout (rest sampleClient)) [EvGovmomiLogout (govmomi sampleClient)]
   <-> govmomiLogout e (govmomi sampleClient) = None) /\
  ~ In (EvRestLogout (rest sampleClient))
       [EvGovmomiLogout (govmomi sampleClient)].
Proof.
  cbv zeta. split.
  - apply (logout_stops_at_first_failure
             {| govmomiLogout := fun _ => Some "session expired";
                restLogout := fun _ => None |}
             sampleClient
             (Returned (Some "govmomi api logout failed: session expired"))
             [EvGovmomiLogout (govmomi sampleClient)]).
    reflexivity.
  - intros [E | []]. discriminate.
Defined.

(** X18: once the signal is there, [handleSignal] with a client
    installed makes exactly the calls of [logout] and never panics; unless
    [write_debug] is "true" it logs nothing at all, so a failed logout
    passes in silence; when it is "true" it logs the signal first and
    then either the failure or the success of the logout.  Without a
    client it panics. *)
Theorem handleSignal_logs_only_when_verbose
  (w : World) (e : Sessions) (sig : string) (s : Store) :
  (forall c,
     client s = Some c ->
     exists eff,
       handleSignal w e sig s = (Returned tt, eff) /\
       filter (fun x => negb (isSigLog x)) eff = snd (logout e (Some c)) /\
       (debug w = false -> filter isSigLog eff = []) /\
       (debug w = true ->
        exists line,
          filter isSigLog eff
            = [EvSigLog ("got signal: " ++ sig ++ ", log out of vSphere")%string;
               EvSigLog line] /\
          match fst (logout e (Some c)) with
          | Returned (Some err) =>
              line = ("vSphere logout failed: " ++ err)%string
          | _ => line = "logged out of govmomi and rest APIs"
          end)) /\
  (client s = None -> fst (handleSignal w e sig s) = Panicked nil_deref).
Proof.
  split.
  - intros c Hc. unfold handleSignal. rewrite Hc. unfold logout.
    destruct (govmomiLogout e (govmomi c)) as [e0 | ];
      [ | destruct (restLogout e (rest c)) as [e0 | ] ];
      destruct (debug w); cbn; eexists;
      (split; [ reflexivity | ]); cbn;
      (split; [ reflexivity | ]);
      (split; [ intros H; first [ reflexivity | discriminate ] | ]);
      intros H; try discriminate; eexists; split; reflexivity.
  - intros Hnil. unfold handleSignal. rewrite Hnil. cbn.
    now destruct (debug w).
Qed.

Lemma handleSignal_logs_only_when_verbose_witness :
  let w := sampleWorld (Err "eof") (Err "eof") None None [] in
  let e := {| govmomiLogout := fun _ => Some "session expired";
              restLogout := fun _ => None |} in
  let s := {| client := Some sampleClient; once := true; trace := [] |} in
  (exists eff,
     handleSignal w e "terminated" s = (Returned tt, eff) /\
     filter (fun x => negb (isSigLog x)) eff = snd (logout e (Some sampleClient)) /\
     (debug w = false -> filter isSigLog eff = []) /\
     (debug w = true ->
      exists line,
        filter isSigLog eff
          = [EvSigLog "got signal: terminated, log out of vSphere";
             EvSigLog line] /\
        match fst (logout e (Some sampleClient)) with
        | Returned (Some err) =>
            line = ("vSphere logout failed: " ++ err)%string
        | _ => line = "logged out of govmomi and rest APIs"
        end)) /\
  fst (handleSignal w e "interrupt" freshStore) = Panicked nil_deref.
Proof.
  cbv zeta. split.
  - apply (proj1 (handleSignal_logs_only_when_verbose
                    (sampleWorld (Err "eof") (Err "eof") None None [])
                    {| govmomiLogout := fun _ => Some "session expired";
                       restLogout := fun _ => None |}
                    "terminated"
                    {| client := Some sampleClient; once := true;
                       trace := [] |}) sampleClient).
    reflexivity.
  - apply (proj2 (handleSignal_logs_only_when_verbose
                    (sampleWorld (Err "eof") (Err "eof") None None [])
                    {| govmomiLogout := fun _ => Some "session expired";
                       restLogout := fun _ => None |}
                    "interrupt" freshStore)).
    reflexivity.
Defined.
